(** * Workflow steps of database-as-a-service: a shallow embedding

    Sources embedded here:
    - [dbaas/workflow/steps/util/base.py]                          ([BaseStep])
    - [dbaas/workflow/steps/util/restore_snapshot/grant_nfs_access.py]
                                                                  ([GrantNFSAccess])
    - [dbaas/workflow/steps/util/upgrade/zabbix.py]
                                   ([ZabbixStep], [DestroyAlarms], [CreateAlarms])
    - [dbaas/mongodb/tests/test_driver.py]       (the two [check_status] tests)

    A step runs in a state and exception monad.  The state holds the
    [workflow_dict] the step receives by reference, the state of the
    external world behind the collaborators (NFS provider, Zabbix server,
    credential store) and the log of the collaborator calls made so far. *)

From Stdlib Require Import ZArith Lia.
From stdpp Require Import base option list gmap strings.

Set Default Proof Using "Type".
#[local] Set Warnings "-register-all".

(** ** Python values, exceptions and the step monad *)

Module Py.

(** The Python values a [workflow_dict] holds: dictionaries with string keys,
    lists, model objects (attribute maps) and scalars. *)
Inductive pyval : Type :=
| PNone
| PBool (b : bool)
| PInt (n : Z)
| PStr (s : string)
| PList (l : list pyval)
| PDict (d : gmap string pyval)
| PObj (attrs : gmap string pyval).

(** Instances of [Exception]: what the built-in operations used by the steps
    raise, and the failures of the collaborators.  [except Exception] catches
    every one of them. *)
Inductive exn : Type :=
| KeyError (key : string)
| TypeError
| AttributeError (name : string)
| NotImplementedError
| CollaboratorError (msg : string).

Inductive outcome (A : Type) : Type :=
| Return (a : A)
| Raise (e : exn).
Arguments Return {A} a.
Arguments Raise {A} e.

Definition raises {A} (o : outcome A) : bool :=
  match o with Return _ => false | Raise _ => true end.

(** The exception an outcome carries, if it is one. *)
Definition failure {A} (o : outcome A) : option exn :=
  match o with Return _ => None | Raise e => Some e end.

(** [bool(v)]: the test of [if v:]. *)
Definition truthy (v : pyval) : bool :=
  match v with
  | PNone => false
  | PBool b => b
  | PInt n => negb (n =? 0)%Z
  | PStr s => negb (String.eqb s EmptyString)
  | PList l => negb (Nat.eqb (length l) 0)
  | PDict d => negb (Nat.eqb (size d) 0)
  | PObj _ => true
  end.

(** [d[key]] on a dictionary. *)
Definition dict_getitem (d : gmap string pyval) (key : string) : outcome pyval :=
  match d !! key with
  | Some v => Return v
  | None => Raise (KeyError key)
  end.

(** [v[key]] with a string key: only a dictionary accepts one. *)
Definition getitem (v : pyval) (key : string) : outcome pyval :=
  match v with
  | PDict d => dict_getitem d key
  | _ => Raise TypeError
  end.

(** [v.name]. *)
Definition getattr (v : pyval) (name : string) : outcome pyval :=
  match v with
  | PObj attrs =>
      match attrs !! name with
      | Some x => Return x
      | None => Raise (AttributeError name)
      end
  | _ => Raise (AttributeError name)
  end.

Fixpoint chars (s : string) : list pyval :=
  match s with
  | EmptyString => []
  | String c s' => PStr (String c EmptyString) :: chars s'
  end.

(** The elements [for x in v] visits: the items of a list, the keys of a
    dictionary, the characters of a string; anything else is not iterable. *)
Definition iter (v : pyval) : outcome (list pyval) :=
  match v with
  | PList l => Return l
  | PDict d => Return (PStr <$> (map_to_list d).*1)
  | PStr s => Return (chars s)
  | _ => Raise TypeError
  end.

(** [v.append(x)], giving the list after the call. *)
Definition append (v x : pyval) : outcome pyval :=
  match v with
  | PList l => Return (PList (l ++ [x]))
  | _ => Raise (AttributeError "append")
  end.

(** State of a run: the shared [workflow_dict], the world behind the
    collaborators, and every collaborator call made so far with its result. *)
Record state (C W : Type) : Type := State {
  workflow_dict : gmap string pyval;
  world : W;
  calls : list (C * outcome pyval)
}.
Arguments State {C W} _ _ _.
Arguments workflow_dict {C W} _.
Arguments world {C W} _.
Arguments calls {C W} _.

Definition M (S A : Type) : Type := S -> outcome A * S.

Definition ret {S A} (a : A) : M S A := fun s => (Return a, s).

Definition raise {S A} (e : exn) : M S A := fun s => (Raise e, s).

Definition bind {S A B} (m : M S A) (k : A -> M S B) : M S B :=
  fun s =>
    match m s with
    | (Return a, s') => k a s'
    | (Raise e, s') => (Raise e, s')
    end.

Definition lift {S A} (o : outcome A) : M S A := fun s => (o, s).

(** [try: body  except Exception: handler]. *)
Definition try_except {S A} (body : M S A) (handler : exn -> M S A) : M S A :=
  fun s =>
    match body s with
    | (Return a, s') => (Return a, s')
    | (Raise e, s') => handler e s'
    end.

(** A collaborator answers a call from the state of its world; it may fail. *)
Class Collaborator (C : Type) : Type := {
  World : Type;
  respond : C -> World -> outcome pyval * World
}.

Definition call {C} `{Collaborator C} (c : C) : M (state C World) pyval :=
  fun s =>
    let (r, w) := respond c (world s) in
    (r, State (workflow_dict s) w (calls s ++ [(c, r)])).

(** [workflow_dict[key]]. *)
Definition wd_getitem {C W} (key : string) : M (state C W) pyval :=
  fun s => (dict_getitem (workflow_dict s) key, s).

(** [workflow_dict['exceptions'][field].append(x)] *)
Definition exceptions_append {C W} (field : string) (x : pyval)
  : M (state C W) unit :=
  fun s =>
    match dict_getitem (workflow_dict s) "exceptions" with
    | Raise e => (Raise e, s)
    | Return exceptions =>
        match getitem exceptions field with
        | Raise e => (Raise e, s)
        | Return log =>
            match append log x, exceptions with
            | Return log', PDict d =>
                (Return tt,
                 State (<["exceptions" := PDict (<[field := log']> d)]>
                          (workflow_dict s))
                       (world s) (calls s))
            | Return _, _ => (Raise TypeError, s)
            | Raise e, _ => (Raise e, s)
            end
        end
    end.

End Py.

Import Py.

Declare Scope step_scope.
Delimit Scope step_scope with step.
Notation "x <- m ;; k" := (bind m (fun x => k))
  (at level 100, m at next level, right associativity) : step_scope.
Notation "m ;;; k" := (bind m (fun _ => k))
  (at level 100, right associativity) : step_scope.
Open Scope step_scope.

(** Helpers the steps import from the rest of the repository. *)
Class Util : Type := {
  (** [util.full_stack()]: the text of the stack of the exception being
      handled. *)
  full_stack : exn -> pyval
}.

Class ErrorCodes : Type := {
  (** [workflow.exceptions.error_codes.DBAAS_0021] *)
  DBAAS_0021 : pyval
}.

(** ** base.py *)

Module BaseStep.

Definition do {S} : M S pyval := raise NotImplementedError.

Definition undo {S} : M S pyval := raise NotImplementedError.

End BaseStep.

(** ** restore_snapshot/grant_nfs_access.py *)

(** [NfsaasProvider.grant_access(environment=, host=, export_id=)] *)
Inductive nfsaas_call : Type :=
| grant_access (environment host export_id : pyval).

Module GrantNFSAccess.
Section step.
Context `{Collaborator nfsaas_call} `{Util} `{ErrorCodes}.

(** The body of the [for host_and_export in ...] loop, once per entry. *)
Fixpoint for_hosts_and_exports (databaseinfra : pyval) (entries : list pyval)
  : M (state nfsaas_call World) unit :=
  match entries with
  | [] => ret tt
  | host_and_export :: rest =>
      environment <- lift (getattr databaseinfra "environment") ;;
      host <- lift (getitem host_and_export "host") ;;
      export_id <- lift (getitem host_and_export "new_export_id") ;;
      call (grant_access environment host export_id) ;;;
      for_hosts_and_exports databaseinfra rest
  end.

Definition do_try : M (state nfsaas_call World) pyval :=
  databaseinfra <- wd_getitem "databaseinfra" ;;
  hosts_and_exports <- wd_getitem "hosts_and_exports" ;;
  entries <- lift (iter hosts_and_exports) ;;
  for_hosts_and_exports databaseinfra entries ;;;
  ret (PBool true).

Definition except_Exception (e : exn) : M (state nfsaas_call World) pyval :=
  let traceback := full_stack e in
  exceptions_append "error_codes" DBAAS_0021 ;;;
  exceptions_append "traceback" traceback ;;;
  ret (PBool false).

Definition do : M (state nfsaas_call World) pyval :=
  try_except do_try except_Exception.

(** [LOG.info] writes to the log file only. *)
Definition undo_try : M (state nfsaas_call World) pyval := ret (PBool true).

Definition undo : M (state nfsaas_call World) pyval :=
  try_except undo_try except_Exception.

End step.
End GrantNFSAccess.

(** ** upgrade/zabbix.py *)

Module Host.
Record t : Type := { hostname : string }.
End Host.

Module DatabaseInfra.
Record t : Type := { environment : pyval }.
End DatabaseInfra.

Module Instance.
Record t : Type := {
  hostname : Host.t;
  dns : string;
  databaseinfra : DatabaseInfra.t
}.
End Instance.

(** What a Zabbix step asks of its collaborators: the credential store when
    it is constructed, then the provider [factory_for] returned. *)
Inductive zabbix_call : Type :=
| CredentialType_objects_get
| get_credentials (environment integration : pyval)
| factory_for (databaseinfra : DatabaseInfra.t) (credentials : pyval)
| logout (zabbix_provider : pyval)
| get_host_triggers (zabbix_provider : pyval) (name : string)
| delete_instance_monitors (zabbix_provider : pyval) (name : string)
| create_instance_basic_monitors (zabbix_provider : pyval) (host : Host.t)
| create_instance_monitors (zabbix_provider : pyval) (instance : Instance.t).

Definition is_deletion (c : zabbix_call) : bool :=
  match c with delete_instance_monitors _ _ => true | _ => false end.

Definition is_creation (c : zabbix_call) : bool :=
  match c with
  | create_instance_basic_monitors _ _ | create_instance_monitors _ _ => true
  | _ => false
  end.

Module ZabbixStep.

Record t : Type := { instance : Instance.t; zabbix_provider : pyval }.

Section step.
Context `{Collaborator zabbix_call}.

Definition __init__ (instance : Instance.t) : M (state zabbix_call World) t :=
  integration <- call CredentialType_objects_get ;;
  let environment :=
    DatabaseInfra.environment (Instance.databaseinfra instance) in
  credentials <- call (get_credentials environment integration) ;;
  zabbix_provider <-
    call (factory_for (Instance.databaseinfra instance) credentials) ;;
  ret {| instance := instance; zabbix_provider := zabbix_provider |}.

Definition __del__ (self : t) : M (state zabbix_call World) pyval :=
  call (logout (zabbix_provider self)) ;;;
  ret PNone.

(** The interpreter runs [__del__] when the last reference to the object
    goes; what [__del__] raises is reported and dropped. *)
Definition finalize (self : t) : M (state zabbix_call World) unit :=
  fun s => (Return tt, snd (__del__ self s)).

Definition do (self : t) : M (state zabbix_call World) pyval :=
  raise NotImplementedError.

Definition undo (self : t) : M (state zabbix_call World) pyval :=
  ret PNone.

End step.
End ZabbixStep.

Module DestroyAlarms.
Section step.
Context `{Collaborator zabbix_call}.

Definition do (self : ZabbixStep.t) : M (state zabbix_call World) pyval :=
  let zabbix_provider := ZabbixStep.zabbix_provider self in
  let instance := ZabbixStep.instance self in
  monitors <-
    call (get_host_triggers zabbix_provider
            (Host.hostname (Instance.hostname instance))) ;;
  (if truthy monitors
   then call (delete_instance_monitors zabbix_provider
                (Host.hostname (Instance.hostname instance))) ;;; ret tt
   else ret tt) ;;;
  monitors <- call (get_host_triggers zabbix_provider (Instance.dns instance)) ;;
  (if truthy monitors
   then call (delete_instance_monitors zabbix_provider
                (Instance.dns instance)) ;;; ret tt
   else ret tt) ;;;
  ret PNone.

Definition undo (self : ZabbixStep.t) : M (state zabbix_call World) pyval :=
  ZabbixStep.undo self.

End step.
End DestroyAlarms.

Module CreateAlarms.
Section step.
Context `{Collaborator zabbix_call}.

(** [DestroyAlarms(self.instance).do()] builds a second step object on the
    same instance; it is released, hence finalized, when its [do] has
    returned. *)
Definition do (self : ZabbixStep.t) : M (state zabbix_call World) pyval :=
  let zabbix_provider := ZabbixStep.zabbix_provider self in
  let instance := ZabbixStep.instance self in
  destroy_alarms <- ZabbixStep.__init__ instance ;;
  DestroyAlarms.do destroy_alarms ;;;
  ZabbixStep.finalize destroy_alarms ;;;
  call (create_instance_basic_monitors zabbix_provider
          (Instance.hostname instance)) ;;;
  call (create_instance_monitors zabbix_provider instance) ;;;
  ret PNone.

Definition undo (self : ZabbixStep.t) : M (state zabbix_call World) pyval :=
  ZabbixStep.undo self.

End step.
End CreateAlarms.

(** ** The sequence executor *)

Module StepSequence.

(** Modelled from the spec: the invocations section 8 counts, [do] or [undo]
    of the step of a given index. *)
Inductive event : Type :=
| Do (i : nat)
| Undo (i : nat).

#[global] Instance event_eq_dec : EqDecision event.
Proof. solve_decision. Defined.

Definition is_do (e : event) : bool :=
  match e with Do _ => true | Undo _ => false end.

Definition is_undo (e : event) : bool :=
  match e with Do _ => false | Undo _ => true end.

(** Modelled from the spec: the terminal states of section 4.2. *)
Inductive final_state : Type :=
| SUCCEEDED
| ROLLED_BACK
| ROLLBACK_PARTIAL.

Section executor.
Context {Ctx : Type}.

(** Modelled from the spec: the step contract of section 4.1, [do] and
    [undo] taking the context and giving an outcome (succeeded or failed)
    and the context as they left it.  The executor that drives the steps is
    not among the sources. *)
Record Step : Type := {
  do : Ctx -> bool * Ctx;
  undo : Ctx -> bool * Ctx
}.

(** Modelled from the spec: what the algorithm of section 4.2 carries, the
    context, the [completed] list and, for the properties, the invocations
    made so far. *)
Record run_state : Type := RunState {
  context : Ctx;
  completed : list nat;
  trace : list event
}.

(** Modelled from the spec: step 2 of the algorithm of section 4.2.  Each
    step's [do] is invoked in order, its index is appended to [completed]
    whatever the outcome, and the first failed outcome stops the iteration;
    the result is the index of the step that failed, if any. *)
Fixpoint forward (steps : list Step) (i : nat) (st : run_state)
  : option nat * run_state :=
  match steps with
  | [] => (None, st)
  | step :: rest =>
      let (ok, context') := do step (context st) in
      let st' := RunState context' (completed st ++ [i]) (trace st ++ [Do i]) in
      if ok then forward rest (S i) st' else (Some i, st')
  end.

(** Modelled from the spec: step 4 of the algorithm of section 4.2.  [undo]
    is invoked on each index of [js] in turn; a failed undo is counted and
    the iteration goes on. *)
Fixpoint rollback (steps : list Step) (js : list nat) (st : run_state)
  : nat * run_state :=
  match js with
  | [] => (0, st)
  | j :: js' =>
      match steps !! j with
      | Some step =>
          let (ok, context') := undo step (context st) in
          let st' := RunState context' (completed st) (trace st ++ [Undo j]) in
          let (failed, st'') := rollback steps js' st' in
          ((if ok then failed else S failed), st'')
      | None => rollback steps js' st
      end
  end.

(** Modelled from the spec: the final result of step 5, with the context
    whose error log the caller reads. *)
Record result : Type := Result {
  final : final_state;
  failed_step : option nat;
  final_context : Ctx;
  events : list event
}.

(** Modelled from the spec: the algorithm of section 4.2, steps 1 to 5.
    The forward pass; when a step failed, the rollback over [completed] in
    reverse order. *)
Definition run (steps : list Step) (context0 : Ctx) : result :=
  match forward steps 0 (RunState context0 [] []) with
  | (None, st) => Result SUCCEEDED None (context st) (trace st)
  | (Some k, st) =>
      let (failed, st') := rollback steps (rev (completed st)) st in
      Result (if Nat.eqb failed 0 then ROLLED_BACK else ROLLBACK_PARTIAL)
             (Some k) (context st') (trace st')
  end.

(** The context in which step [i] runs: the one the first [i] steps' [do]
    left. *)
Definition context_before (steps : list Step) (context0 : Ctx) (i : nat) : Ctx :=
  fold_left (fun c step => snd (do step c)) (take i steps) context0.

(** Step [k] is the first whose [do] fails: it fails in the context the
    steps before it left, and each of those succeeded. *)
Definition first_to_fail (steps : list Step) (context0 : Ctx) (k : nat) : bool :=
  match steps !! k with
  | Some step => negb (fst (do step (context_before steps context0 k)))
  | None => false
  end &&
  forallb (fun i =>
             match steps !! i with
             | Some step => fst (do step (context_before steps context0 i))
             | None => true
             end)
          (seq 0 k).

End executor.
Arguments Step : clear implicits.
Arguments run_state : clear implicits.
Arguments result : clear implicits.
End StepSequence.

(** ** The MongoDB driver's [check_status] *)

Module MongoDB.

(** The errors [test_driver.py] imports from [base.driver];
    [ErrorRunningScript] with the three fields the tests build it from. *)
Inductive driver_error : Type :=
| ConnectionError
| AuthenticationError
| ErrorRunningScript (script_name : string) (exit_code : Z) (stdout : string).

(** [pattern in text] *)
Fixpoint contains (pattern text : string) : bool :=
  if String.prefix pattern text then true
  else match text with
       | EmptyString => false
       | String _ rest => contains pattern rest
       end.

(** Modelled from the spec: the table of (pattern, error) of section 9,
    with the two patterns the tests of [test_driver.py] feed to the driver.
    [mongodb/driver.py] is not among the sources. *)
Definition classification : list (string * driver_error) :=
  [ ("couldn't connect to server", ConnectionError);
    ("auth fails", AuthenticationError) ].

(** Modelled from the spec: classification by the text the script printed,
    the first pattern of the table found in it; a failure matching no
    pattern stays the [ErrorRunningScript] it was. *)
Fixpoint classify (table : list (string * driver_error))
    (script_name : string) (exit_code : Z) (stdout : string) : driver_error :=
  match table with
  | [] => ErrorRunningScript script_name exit_code stdout
  | (pattern, error) :: rest =>
      if contains pattern stdout then error
      else classify rest script_name exit_code stdout
  end.

Section driver.
(** [MongoDB.SCRIPT], the script the driver runs. *)
Variable SCRIPT : string.

(** Modelled from the spec: [check_status] runs the status action of the
    script through [call_script]; the script's failure is classified, its
    success is a good status.  [mongodb/driver.py] is not among the
    sources. *)
Definition check_status
    (call_script : string -> list string -> driver_error + string)
  : driver_error + bool :=
  match call_script SCRIPT ["status"] with
  | inr _ => inr true
  | inl (ErrorRunningScript script_name exit_code stdout) =>
      inl (classify classification script_name exit_code stdout)
  | inl error => inl error
  end.

Definition quote : string := String (Ascii.ascii_of_nat 34) EmptyString.

(** The [raise_error] side effects of the two tests of
    [StatusAndInfoMongoDBTestCase]. *)
Definition raise_connection_error (script : string) (args : list string)
  : driver_error + string :=
  inl (ErrorRunningScript SCRIPT 1
    "Error: couldn't connect to server xxx:yyy at src/mongo/shell/mongo.js:147").

Definition raise_authentication_error (script : string) (args : list string)
  : driver_error + string :=
  inl (ErrorRunningScript SCRIPT 1
    ("Error: 18 { code: 18, ok: 0.0, errmsg: " +:+ quote +:+ "auth fails"
       +:+ quote +:+ " }")).

End driver.
End MongoDB.

(** ** Reading the error log *)

(** [workflow_dict['exceptions'][field]] when it is a list. *)
Definition log_of (field : string) (wd : gmap string pyval) : option (list pyval) :=
  match wd !! "exceptions" with
  | Some (PDict exceptions) =>
      match exceptions !! field with
      | Some (PList l) => Some l
      | _ => None
      end
  | _ => None
  end.

(** The [workflow_dict] has the 'exceptions' structure: a dictionary with the
    two lists. *)
Definition exceptions_structure (wd : gmap string pyval)
    (exceptions : gmap string pyval) (error_codes traceback : list pyval) : Prop :=
  wd !! "exceptions" = Some (PDict exceptions) /\
  exceptions !! "error_codes" = Some (PList error_codes) /\
  exceptions !! "traceback" = Some (PList traceback).

(** The [workflow_dict] with one (error code, traceback) pair more. *)
Definition with_error (wd exceptions : gmap string pyval)
    (error_codes traceback : list pyval) (code trace : pyval)
  : gmap string pyval :=
  <["exceptions" :=
      PDict (<["traceback" := PList (traceback ++ [trace])]>
               (<["error_codes" := PList (error_codes ++ [code])]> exceptions))]>
    wd.

(** What a step may do to the [workflow_dict]: every key but 'exceptions'
    keeps its value, 'exceptions' keeps every field but the two logs, and a
    log keeps its entries, in order, as a prefix. *)
Definition only_appends (wd wd' : gmap string pyval) : Prop :=
  (forall key, key <> "exceptions" -> wd' !! key = wd !! key) /\
  (wd' !! "exceptions" = wd !! "exceptions" \/
   exists exceptions exceptions',
     wd !! "exceptions" = Some (PDict exceptions) /\
     wd' !! "exceptions" = Some (PDict exceptions') /\
     forall field, field <> "error_codes" -> field <> "traceback" ->
       exceptions' !! field = exceptions !! field) /\
  (forall field l, log_of field wd = Some l ->
     exists added, log_of field wd' = Some (l ++ added)).

(** The calls made between two states of a run. *)
Definition new_calls {C W} (s s' : state C W) : list (C * outcome pyval) :=
  drop (length (calls s)) (calls s').

(** One entry of 'hosts_and_exports' with its host and its new export. *)
Definition host_and_export (entry host export_id : pyval) : Prop :=
  exists d, entry = PDict d /\
    d !! "host" = Some host /\ d !! "new_export_id" = Some export_id.

(** The same step run [n] times in a row, each run from the state the one
    before left, whatever the outcomes. *)
Fixpoint run_times {S A} (n : nat) (m : M S A) (s : S)
  : list (outcome A) * S :=
  match n with
  | 0 => ([], s)
  | S n' =>
      let (r, s1) := m s in
      let (rs, s2) := run_times n' m s1 in
      (r :: rs, s2)
  end.

Definition returned_False (r : outcome pyval) : bool :=
  match r with Return (PBool false) => true | _ => false end.

(** The calls of the constructor of a Zabbix step. *)
Definition is_construction (c : zabbix_call) : bool :=
  match c with
  | CredentialType_objects_get | get_credentials _ _ | factory_for _ _ => true
  | _ => false
  end.

(** A query or a deletion, on the given provider, for one of two names. *)
Definition query_or_deletion_for (zabbix_provider : pyval)
    (hostname dns : string) (c : zabbix_call) : Prop :=
  match c with
  | get_host_triggers p name | delete_instance_monitors p name =>
      p = zabbix_provider /\ (name = hostname \/ name = dns)
  | _ => False
  end.

(** ** Test doubles for the collaborators *)

Module Mock.

(** An NFS provider that refuses the host "host-2" and counts its grants. *)
Definition nfsaas : Collaborator nfsaas_call := {|
  World := nat;
  respond c granted :=
    match c with
    | grant_access _ (PStr h) _ =>
        if String.eqb h "host-2"
        then (Raise (CollaboratorError "access denied"), granted)
        else (Return PNone, S granted)
    | grant_access _ _ _ => (Return PNone, S granted)
    end
|}.

Definition util : Util := {|
  full_stack e := PStr "Traceback (most recent call last): ..."
|}.

Definition error_codes : ErrorCodes := {|
  DBAAS_0021 := PStr "DBAAS_0021"
|}.

Definition entry (host : string) (export_id : Z) : pyval :=
  PDict (<["host" := PStr host]> (<["new_export_id" := PInt export_id]> ∅)).

Definition databaseinfra : pyval :=
  PObj (<["environment" := PStr "dev"]> ∅).

Definition no_errors : gmap string pyval :=
  <["error_codes" := PList []]> (<["traceback" := PList []]> ∅).

(** Two hosts the provider accepts. *)
Definition workflow_dict_ok : gmap string pyval :=
  <["databaseinfra" := databaseinfra]>
    (<["hosts_and_exports" := PList [entry "host-1" 11; entry "host-3" 13]]>
       (<["exceptions" := PDict no_errors]> ∅)).

(** The second host is refused. *)
Definition workflow_dict_refused : gmap string pyval :=
  <["databaseinfra" := databaseinfra]>
    (<["hosts_and_exports" :=
         PList [entry "host-1" 11; entry "host-2" 12; entry "host-3" 13]]>
       (<["exceptions" := PDict no_errors]> ∅)).

(** The same without the 'exceptions' structure. *)
Definition workflow_dict_bare : gmap string pyval :=
  <["databaseinfra" := databaseinfra]>
    (<["hosts_and_exports" := PList [entry "host-2" 12]]> ∅).

Definition start (wd : gmap string pyval) : state nfsaas_call nat :=
  State wd 0 [].

(** A Zabbix server holding the monitors of each name; when it is not [up]
    every call to it fails. *)
Definition add_monitor (name : string) (monitor : pyval)
    (w : gmap string (list pyval)) : gmap string (list pyval) :=
  <[name := default [] (w !! name) ++ [monitor]]> w.

Definition zabbix (up : bool) : Collaborator zabbix_call := {|
  World := gmap string (list pyval);
  respond c w :=
    if up then
      match c with
      | CredentialType_objects_get => (Return (PStr "zabbix"), w)
      | get_credentials _ _ => (Return (PStr "credentials"), w)
      | factory_for _ _ => (Return (PStr "provider"), w)
      | logout _ => (Return PNone, w)
      | get_host_triggers _ name => (Return (PList (default [] (w !! name))), w)
      | delete_instance_monitors _ name => (Return PNone, delete name w)
      | create_instance_basic_monitors _ host =>
          (Return PNone, add_monitor (Host.hostname host) (PStr "basic") w)
      | create_instance_monitors _ instance =>
          (Return PNone, add_monitor (Instance.dns instance) (PStr "database") w)
      end
    else (Raise (CollaboratorError "zabbix unreachable"), w)
|}.

Definition zabbix_up : Collaborator zabbix_call := zabbix true.

Definition zabbix_down : Collaborator zabbix_call := zabbix false.

Definition instance : Instance.t := {|
  Instance.hostname := {| Host.hostname := "db01.host" |};
  Instance.dns := "db01.dns";
  Instance.databaseinfra := {| DatabaseInfra.environment := PStr "dev" |}
|}.

Definition step : ZabbixStep.t := {|
  ZabbixStep.instance := instance;
  ZabbixStep.zabbix_provider := PStr "provider"
|}.

(** A server that already watches the host of [instance]. *)
Definition monitored : gmap string (list pyval) :=
  <["db01.host" := [PStr "basic"]]> ∅.

Definition zstart (w : gmap string (list pyval))
  : state zabbix_call (gmap string (list pyval)) :=
  State ∅ w [].

(** Three steps over a list of error codes: the third fails, and so does
    the undo of the second. *)
Definition succeeds : StepSequence.Step (list string) := {|
  StepSequence.do c := (true, c);
  StepSequence.undo c := (true, c)
|}.

Definition undo_fails : StepSequence.Step (list string) := {|
  StepSequence.do c := (true, c);
  StepSequence.undo c := (false, c ++ ["UNDO_ERROR"])
|}.

Definition do_fails : StepSequence.Step (list string) := {|
  StepSequence.do c := (false, c ++ ["CONN_ERROR"]);
  StepSequence.undo c := (true, c)
|}.

(** No 'hosts_and_exports' key. *)
Definition workflow_dict_no_hosts : gmap string pyval :=
  <["databaseinfra" := databaseinfra]> (<["exceptions" := PDict no_errors]> ∅).

(** Nothing to grant, and no database infrastructure object either. *)
Definition workflow_dict_empty : gmap string pyval :=
  <["databaseinfra" := PNone]> (<["hosts_and_exports" := PList []]> ∅).

(** An 'exceptions' dictionary without its 'traceback' list. *)
Definition workflow_dict_no_traceback : gmap string pyval :=
  <["databaseinfra" := databaseinfra]>
    (<["hosts_and_exports" := PList [entry "host-2" 12]]>
       (<["exceptions" := PDict (<["error_codes" := PList []]> ∅)]> ∅)).

(** The second entry has no 'new_export_id'. *)
Definition workflow_dict_malformed : gmap string pyval :=
  <["databaseinfra" := databaseinfra]>
    (<["hosts_and_exports" :=
         PList [entry "host-1" 11;
                PDict (<["host" := PStr "host-3"]> ∅);
                entry "host-4" 14]]>
       (<["exceptions" := PDict no_errors]> ∅)).

(** A Zabbix server that answers queries and refuses deletions. *)
Definition zabbix_read_only : Collaborator zabbix_call := {|
  World := gmap string (list pyval);
  respond c w :=
    if is_deletion c
    then (Raise (CollaboratorError "permission denied"), w)
    else @respond _ (zabbix true) c w
|}.

End Mock.

(** * Properties *)

(** ** The monad and the log of calls *)

Lemma new_calls_app {C W} (s s' : state C W) new :
  calls s' = calls s ++ new -> new_calls s s' = new.
Proof.
  intros E. unfold new_calls. rewrite E.
  by rewrite drop_app_length.
Qed.

Lemma call_run {C} `{Collaborator C} (c : C) (s : state C World) :
  call c s =
    (fst (respond c (world s)),
     State (workflow_dict s) (snd (respond c (world s)))
           (calls s ++ [(c, fst (respond c (world s)))])).
Proof. unfold call. by destruct (respond c (world s)). Qed.

Lemma log_of_with_error wd exceptions error_codes traceback code trace :
  log_of "error_codes"
    (with_error wd exceptions error_codes traceback code trace)
    = Some (error_codes ++ [code]) /\
  log_of "traceback"
    (with_error wd exceptions error_codes traceback code trace)
    = Some (traceback ++ [trace]).
Proof.
  unfold log_of, with_error. rewrite lookup_insert_eq.
  split.
  - rewrite lookup_insert_ne by done. by rewrite lookup_insert_eq.
  - by rewrite lookup_insert_eq.
Qed.

Lemma only_appends_refl wd : only_appends wd wd.
Proof.
  repeat split; [by left|].
  intros field l E. exists []. by rewrite app_nil_r.
Qed.

(** ** GrantNFSAccess *)

Section GrantNFSAccess_facts.
Context `{Collaborator nfsaas_call} `{Util} `{ErrorCodes}.

Lemma exceptions_append_ok (s : state nfsaas_call World) exceptions field l x :
  workflow_dict s !! "exceptions" = Some (PDict exceptions) ->
  exceptions !! field = Some (PList l) ->
  exceptions_append field x s =
    (Return tt,
     State (<["exceptions" := PDict (<[field := PList (l ++ [x])]> exceptions)]>
              (workflow_dict s))
           (world s) (calls s)).
Proof.
  intros E1 E2. unfold exceptions_append, dict_getitem.
  rewrite E1. simpl. unfold dict_getitem. by rewrite E2.
Qed.

(** The handler on a [workflow_dict] with the 'exceptions' structure: one
    pair appended, [False] returned, nothing raised. *)
Lemma except_Exception_ok (s : state nfsaas_call World)
    exceptions error_codes traceback e :
  exceptions_structure (workflow_dict s) exceptions error_codes traceback ->
  GrantNFSAccess.except_Exception e s =
    (Return (PBool false),
     State (with_error (workflow_dict s) exceptions error_codes traceback
              DBAAS_0021 (full_stack e))
           (world s) (calls s)).
Proof.
  intros (E1 & E2 & E3). unfold GrantNFSAccess.except_Exception, bind.
  rewrite (exceptions_append_ok s exceptions "error_codes" error_codes) by done.
  erewrite exceptions_append_ok; cycle 1.
  - simpl. apply lookup_insert_eq.
  - rewrite lookup_insert_ne by done. exact E3.
  - simpl. unfold ret, with_error. by rewrite insert_insert_eq.
Qed.

(** The handler on any [workflow_dict]: it touches neither the world nor the
    log of calls, and it only appends. *)
Lemma except_Exception_any (s : state nfsaas_call World) e :
  let (r, s') := GrantNFSAccess.except_Exception e s in
  world s' = world s /\ calls s' = calls s /\
  only_appends (workflow_dict s) (workflow_dict s') /\
  (forall v, r = Return v ->
     v = PBool false /\
     exists exceptions error_codes traceback,
       exceptions_structure (workflow_dict s) exceptions error_codes traceback /\
       workflow_dict s' =
         with_error (workflow_dict s) exceptions error_codes traceback
           DBAAS_0021 (full_stack e)).
Proof.
  destruct (GrantNFSAccess.except_Exception e s) as [r s'] eqn:E.
  revert E. unfold GrantNFSAccess.except_Exception, bind.
  pose proof (only_appends_refl (workflow_dict s)) as Hrefl.
  unfold exceptions_append at 1, dict_getitem at 1.
  destruct (workflow_dict s !! "exceptions") as [ex|] eqn:E1;
    [|intros [= <- <-]; done].
  destruct ex as [| | | | |d|]; simpl;
    try (intros [= <- <-]; done).
  unfold dict_getitem at 1.
  destruct (d !! "error_codes") as [ec|] eqn:E2; [|intros [= <- <-]; done].
  destruct ec as [| | | |ec| |]; simpl; try (intros [= <- <-]; done).
  set (d1 := <["error_codes" := PList (ec ++ [DBAAS_0021])]> d).
  set (s1 := State _ _ _).
  assert (only_appends (workflow_dict s) (workflow_dict s1)) as Hone.
  { subst s1. simpl. repeat split.
    - intros key Hk. by rewrite lookup_insert_ne.
    - right. exists d, d1. rewrite lookup_insert_eq. repeat split; try done.
      intros field Hf _. subst d1. by rewrite lookup_insert_ne.
    - intros field l. unfold log_of. rewrite E1, lookup_insert_eq.
      subst d1. destruct (decide (field = "error_codes")) as [->|Hne].
      + rewrite E2, lookup_insert_eq. intros [= <-]. by eexists.
      + rewrite lookup_insert_ne by done. intros ->.
        exists []. by rewrite app_nil_r. }
  unfold exceptions_append, dict_getitem at 1.
  change (workflow_dict s1 !! "exceptions") with
    (<["exceptions" := PDict d1]> (workflow_dict s) !! "exceptions").
  rewrite lookup_insert_eq. simpl. unfold dict_getitem.
  destruct (d1 !! "traceback") as [tb|] eqn:E3; [|intros [= <- <-]; done].
  destruct tb as [| | | |tb| |]; simpl; try (intros [= <- <-]; done).
  unfold ret. intros [= <- <-]. simpl.
  assert (d !! "traceback" = Some (PList tb)) as E3'.
  { subst d1. by rewrite lookup_insert_ne in E3. }
  rewrite insert_insert_eq.
  split; [done|]. split; [done|]. split.
  - split; [|split].
    + intros key Hk. by rewrite lookup_insert_ne.
    + right. eexists d, _. rewrite lookup_insert_eq. repeat split; try done.
      intros field Hf1 Hf2. subst d1. by rewrite !lookup_insert_ne.
    + intros field l. unfold log_of. rewrite E1, lookup_insert_eq.
      destruct (decide (field = "traceback")) as [->|Hne1].
      * rewrite E3', lookup_insert_eq. intros [= <-]. by eexists.
      * rewrite lookup_insert_ne by done. subst d1.
        destruct (decide (field = "error_codes")) as [->|Hne2].
        -- rewrite E2, lookup_insert_eq. intros [= <-]. by eexists.
        -- rewrite lookup_insert_ne by done. intros ->.
           exists []. by rewrite app_nil_r.
  - intros v [= <-]. split; [done|]. exists d, ec, tb. by repeat split.
Qed.

(** The loop leaves the [workflow_dict] alone, and a call that fails ends it
    with the failure of that call. *)
Lemma for_hosts_and_exports_calls databaseinfra entries
    (s : state nfsaas_call World) :
  let (r, s') := GrantNFSAccess.for_hosts_and_exports databaseinfra entries s in
  workflow_dict s' = workflow_dict s /\
  exists new, calls s' = calls s ++ new /\
    forall c e, (c, Raise e) ∈ new -> failure r = Some e.
Proof.
  revert s. induction entries as [|entry rest IH]; intros s; simpl.
  - split; [done|]. exists []. rewrite app_nil_r. split; [done|].
    intros c e Hin. by apply elem_of_nil in Hin.
  - unfold bind at 1, lift at 1.
    destruct (getattr databaseinfra "environment") as [environment|e1].
    2:{ split; [done|]. exists []. rewrite app_nil_r. split; [done|].
        intros c e Hin. by apply elem_of_nil in Hin. }
    unfold bind at 1, lift at 1.
    destruct (getitem entry "host") as [host|e1].
    2:{ split; [done|]. exists []. rewrite app_nil_r. split; [done|].
        intros c e Hin. by apply elem_of_nil in Hin. }
    unfold bind at 1, lift at 1.
    destruct (getitem entry "new_export_id") as [export_id|e1].
    2:{ split; [done|]. exists []. rewrite app_nil_r. split; [done|].
        intros c e Hin. by apply elem_of_nil in Hin. }
    unfold bind at 1. rewrite call_run.
    destruct (respond (grant_access environment host export_id) (world s))
      as [[v|e1] w]; simpl.
    + specialize (IH (State (workflow_dict s) w
                        (calls s ++ [(grant_access environment host export_id,
                                      Return v)]))).
      destruct (GrantNFSAccess.for_hosts_and_exports _ _ _) as [r s'].
      destruct IH as (Hwd & new & Hcalls & Hraise). simpl in *.
      split; [done|]. eexists (_ :: new). split.
      * rewrite Hcalls, <- app_assoc. reflexivity.
      * intros c e Hin. apply elem_of_cons in Hin as [[= _ ?]|Hin]; eauto.
    + split; [done|]. eexists [_]. split; [done|].
      intros c e Hin. apply list_elem_of_singleton in Hin. simpl. congruence.
Qed.

Lemma do_try_calls (s : state nfsaas_call World) :
  let (r, s') := GrantNFSAccess.do_try s in
  workflow_dict s' = workflow_dict s /\
  exists new, calls s' = calls s ++ new /\
    forall c e, (c, Raise e) ∈ new -> failure r = Some e.
Proof.
  assert (forall e : exn,
    workflow_dict s = workflow_dict s /\
    exists new : list (nfsaas_call * outcome pyval),
      calls s = calls s ++ new /\
      forall c e', (c, Raise e') ∈ new -> Some e = Some e') as Hnone.
  { intros e. split; [done|]. exists []. rewrite app_nil_r. split; [done|].
    intros c e' Hin. by apply elem_of_nil in Hin. }
  unfold GrantNFSAccess.do_try.
  unfold bind at 1, wd_getitem at 1.
  destruct (dict_getitem (workflow_dict s) "databaseinfra")
    as [databaseinfra|e1]; [|apply Hnone].
  unfold bind at 1, wd_getitem at 1.
  destruct (dict_getitem (workflow_dict s) "hosts_and_exports")
    as [hosts_and_exports|e1]; [|apply Hnone].
  unfold bind at 1, lift at 1.
  destruct (iter hosts_and_exports) as [entries|e1]; [|apply Hnone].
  unfold bind.
  pose proof (for_hosts_and_exports_calls databaseinfra entries s) as Hloop.
  destruct (GrantNFSAccess.for_hosts_and_exports databaseinfra entries s)
    as [[[]|e1] s']; simpl.
  - destruct Hloop as (Hwd & new & Hcalls & Hraise).
    split; [done|]. exists new. split; [done|].
    intros c e Hin. by specialize (Hraise c e Hin).
  - exact Hloop.
Qed.

(** On well-formed entries, a loop none of whose calls failed has made one
    call per entry, in order. *)
Lemma for_hosts_and_exports_all databaseinfra environment entries
    (hxs : list (pyval * pyval)) (s : state nfsaas_call World) :
  getattr databaseinfra "environment" = Return environment ->
  Forall2 (fun entry hx => host_and_export entry hx.1 hx.2) entries hxs ->
  let (r, s') := GrantNFSAccess.for_hosts_and_exports databaseinfra entries s in
  exists new, calls s' = calls s ++ new /\
    (Forall (fun cr => raises cr.2 = false) new ->
     r = Return tt /\
     new.*1 = (fun hx => grant_access environment hx.1 hx.2) <$> hxs).
Proof.
  intros Henv Hall. revert s.
  induction Hall as [|entry [host export_id] rest hxs (d & -> & Hh & Hx) _ IH];
    intros s; simpl.
  - exists []. by rewrite app_nil_r.
  - unfold bind at 1, lift at 1. rewrite Henv.
    unfold bind at 1, lift at 1. unfold dict_getitem. simpl in Hh, Hx.
    rewrite Hh. unfold bind at 1, lift at 1. rewrite Hx.
    unfold bind at 1. rewrite call_run.
    destruct (respond (grant_access environment host export_id) (world s))
      as [[v|e1] w]; simpl.
    + specialize (IH (State (workflow_dict s) w
                        (calls s ++ [(grant_access environment host export_id,
                                      Return v)]))).
      destruct (GrantNFSAccess.for_hosts_and_exports _ _ _) as [r s'].
      destruct IH as (new & Hcalls & Hok). simpl in *.
      eexists (_ :: new). split.
      * rewrite Hcalls, <- app_assoc. reflexivity.
      * intros Hnew. apply Forall_cons in Hnew as [_ Hnew].
        destruct (Hok Hnew) as [-> Hfst]. split; [done|].
        rewrite fmap_cons. simpl. by rewrite Hfst.
    + eexists [_]. split; [done|].
      intros Hnew. apply Forall_cons in Hnew as [Hbad _]. done.
Qed.

End GrantNFSAccess_facts.

Section GrantNFSAccess_properties.
Context `{Collaborator nfsaas_call} `{Util} `{ErrorCodes}.

(** What [do] leaves behind, from what its [try] block did. *)
Lemma do_unfold (s : state nfsaas_call World) :
  GrantNFSAccess.do s =
    match GrantNFSAccess.do_try s with
    | (Return v, s1) => (Return v, s1)
    | (Raise e, s1) => GrantNFSAccess.except_Exception e s1
    end.
Proof. reflexivity. Qed.

(** [do] makes the calls of its [try] block and no other. *)
Lemma do_calls (s : state nfsaas_call World) :
  calls (GrantNFSAccess.do s).2 = calls (GrantNFSAccess.do_try s).2.
Proof.
  rewrite do_unfold.
  destruct (GrantNFSAccess.do_try s) as [[v|e] s1]; [done|].
  pose proof (except_Exception_any s1 e) as Hh.
  destruct (GrantNFSAccess.except_Exception e s1) as [r s2].
  by destruct Hh as (_ & Hc & _).
Qed.

(** C2. For every [workflow_dict] with the 'exceptions' structure, when a
    [grant_access] call made by [GrantNFSAccess.do] raises, [do] returns
    [False] without raising, and appends exactly one error code,
    [DBAAS_0021], to the error codes and exactly one stack trace, the one of
    that failure, to the tracebacks. *)
Theorem GrantNFSAccess_do_logs_failure (s : state nfsaas_call World)
    exceptions error_codes traceback i c e :
  exceptions_structure (workflow_dict s) exceptions error_codes traceback ->
  new_calls s (GrantNFSAccess.do s).2 !! i = Some (c, Raise e) ->
  (GrantNFSAccess.do s).1 = Return (PBool false) /\
  log_of "error_codes" (workflow_dict (GrantNFSAccess.do s).2)
    = Some (error_codes ++ [DBAAS_0021]) /\
  log_of "traceback" (workflow_dict (GrantNFSAccess.do s).2)
    = Some (traceback ++ [full_stack e]) /\
  workflow_dict (GrantNFSAccess.do s).2
    = with_error (workflow_dict s) exceptions error_codes traceback
        DBAAS_0021 (full_stack e).
Proof.
  intros Hex Hcall.
  pose proof (do_calls s) as Hsame.
  unfold new_calls in Hcall. rewrite Hsame in Hcall.
  rewrite do_unfold.
  pose proof (do_try_calls s) as Htry.
  destruct (GrantNFSAccess.do_try s) as [r s1].
  destruct Htry as (Hwd & new & Hcalls & Hraise). simpl in Hcall.
  rewrite Hcalls, drop_app_length in Hcall.
  assert ((c, Raise e) ∈ new) as Hin by (apply list_elem_of_lookup; eauto).
  specialize (Hraise c e Hin).
  destruct r as [v|e1]; [done|]. injection Hraise as ->.
  rewrite <- Hwd in Hex.
  rewrite (except_Exception_ok s1 _ _ _ e Hex). simpl. rewrite Hwd.
  pose proof (log_of_with_error (workflow_dict s) exceptions error_codes
                traceback DBAAS_0021 (full_stack e)) as [? ?].
  done.
Qed.

(** C6. When the [workflow_dict] holds the database infrastructure and a
    list of entries with their 'host' and 'new_export_id', and no call to
    the provider fails, [GrantNFSAccess.do] calls [grant_access] once per
    entry, in list order, with the infrastructure's environment and the
    entry's host and new export, and returns [True] with the
    [workflow_dict], hence the error log, unchanged. *)
Theorem GrantNFSAccess_do_grants_each_entry (s : state nfsaas_call World)
    databaseinfra environment entries (hxs : list (pyval * pyval)) :
  workflow_dict s !! "databaseinfra" = Some databaseinfra ->
  getattr databaseinfra "environment" = Return environment ->
  workflow_dict s !! "hosts_and_exports" = Some (PList entries) ->
  Forall2 (fun entry hx => host_and_export entry hx.1 hx.2) entries hxs ->
  Forall (fun cr => raises cr.2 = false) (new_calls s (GrantNFSAccess.do s).2) ->
  (GrantNFSAccess.do s).1 = Return (PBool true) /\
  (new_calls s (GrantNFSAccess.do s).2).*1
    = (fun hx => grant_access environment hx.1 hx.2) <$> hxs /\
  workflow_dict (GrantNFSAccess.do s).2 = workflow_dict s.
Proof.
  intros Hdb Henv Hlist Hentries Hok.
  pose proof (do_calls s) as Hsame.
  unfold new_calls in Hok |- *. rewrite Hsame in Hok |- *.
  rewrite do_unfold.
  unfold GrantNFSAccess.do_try, bind, wd_getitem, dict_getitem, lift in *.
  rewrite Hdb, Hlist in *. simpl in *.
  pose proof (for_hosts_and_exports_all databaseinfra environment entries hxs s
                Henv Hentries) as Hloop.
  pose proof (for_hosts_and_exports_calls databaseinfra entries s) as Hkeep.
  destruct (GrantNFSAccess.for_hosts_and_exports databaseinfra entries s)
    as [r s1].
  destruct Hloop as (new & Hcalls & Hall).
  destruct Hkeep as (Hwd & _).
  assert (calls (match r with
                 | Return _ => ret (PBool true) s1
                 | Raise e => (Raise e, s1)
                 end).2 = calls s1) as Hc by (by destruct r).
  rewrite Hc, Hcalls, drop_app_length in Hok |- *.
  destruct (Hall Hok) as [-> Hfst]. simpl in *.
  by rewrite Hfst.
Qed.

(** C7. [GrantNFSAccess.do] and [GrantNFSAccess.undo] only append to the
    error log: whatever the [workflow_dict], every key but 'exceptions'
    keeps its value, 'exceptions' keeps every field but the two logs, and
    each log keeps its entries in order; a [do] that reports failure has
    changed the [workflow_dict] by one (error code, traceback) pair and
    nothing else; [undo] changes nothing. *)
Theorem GrantNFSAccess_only_appends (s : state nfsaas_call World) :
  only_appends (workflow_dict s) (workflow_dict (GrantNFSAccess.do s).2) /\
  ((GrantNFSAccess.do s).1 = Return (PBool false) ->
   exists exceptions error_codes traceback e,
     exceptions_structure (workflow_dict s) exceptions error_codes traceback /\
     workflow_dict (GrantNFSAccess.do s).2 =
       with_error (workflow_dict s) exceptions error_codes traceback
         DBAAS_0021 (full_stack e)) /\
  workflow_dict (GrantNFSAccess.undo s).2 = workflow_dict s.
Proof.
  split; [|split]; [| |done].
  - rewrite do_unfold. pose proof (do_try_calls s) as Htry.
    destruct (GrantNFSAccess.do_try s) as [[v|e] s1];
      destruct Htry as (Hwd & _); simpl.
    + rewrite Hwd. apply only_appends_refl.
    + pose proof (except_Exception_any s1 e) as Hh.
      destruct (GrantNFSAccess.except_Exception e s1) as [r s2].
      destruct Hh as (_ & _ & Happ & _). by rewrite Hwd in Happ.
  - rewrite do_unfold. pose proof (do_try_calls s) as Htry.
    assert ((GrantNFSAccess.do_try s).1 <> Return (PBool false)) as Hv.
    { unfold GrantNFSAccess.do_try, bind, wd_getitem, lift.
      destruct (dict_getitem _ "databaseinfra"); [|done].
      destruct (dict_getitem _ "hosts_and_exports") as [v|]; [|done].
      destruct (iter v); [|done].
      by destruct (GrantNFSAccess.for_hosts_and_exports _ _ _) as [[|] ?]. }
    destruct (GrantNFSAccess.do_try s) as [[v|e] s1];
      destruct Htry as (Hwd & _); simpl.
    + intros E. by destruct Hv.
    + pose proof (except_Exception_any s1 e) as Hh.
      destruct (GrantNFSAccess.except_Exception e s1) as [r s2].
      destruct Hh as (_ & _ & _ & Hret). simpl. intros ->.
      destruct (Hret _ eq_refl) as (_ & ex & ec & tb & Hex & Hwd').
      rewrite Hwd in Hex, Hwd'. by exists ex, ec, tb, e.
Qed.

(** C8. On every [workflow_dict], whether [do] ran on it or not,
    [GrantNFSAccess.undo] returns [True] and leaves the state, so the error
    codes and the tracebacks, as they were. *)
Theorem GrantNFSAccess_undo_succeeds (s : state nfsaas_call World) :
  GrantNFSAccess.undo s = (Return (PBool true), s) /\
  (forall field,
     log_of field (workflow_dict (GrantNFSAccess.undo s).2)
       = log_of field (workflow_dict s)) /\
  (forall s0, GrantNFSAccess.undo (GrantNFSAccess.do s0).2
     = (Return (PBool true), (GrantNFSAccess.do s0).2)).
Proof. done. Qed.

End GrantNFSAccess_properties.

(** ** The Zabbix steps *)

(** Membership in the explicit list of calls of one run. *)
Ltac in_calls H :=
  repeat (apply elem_of_cons in H as [H|H]);
  try (apply elem_of_nil in H; destruct H);
  try (injection H as ? ?; subst); try discriminate.

Ltac is_call := repeat (first [by apply list_elem_of_here | apply list_elem_of_further]).

Section Zabbix_facts.
Context `{Collaborator zabbix_call}.

(** [DestroyAlarms.do], call by call: it leaves the [workflow_dict] alone,
    creates nothing, stops at the first call that fails with the failure of
    that call, returns [None] otherwise, and deletes the monitors of a name
    exactly when it was given triggers for that name. *)
Lemma DestroyAlarms_do_calls (self : ZabbixStep.t)
    (s : state zabbix_call World) :
  let (r, s') := DestroyAlarms.do self s in
  workflow_dict s' = workflow_dict s /\
  exists new, calls s' = calls s ++ new /\
    (exists o,
       new !! 0 =
         Some (get_host_triggers (ZabbixStep.zabbix_provider self)
                 (Host.hostname (Instance.hostname (ZabbixStep.instance self))),
               o)) /\
    Forall (fun cr => is_creation cr.1 = false) new /\
    (forall c e, (c, Raise e) ∈ new -> failure r = Some e) /\
    (forall v, r = Return v -> v = PNone) /\
    (Forall (fun cr => raises cr.2 = false) new -> r = Return PNone) /\
    (forall name,
       (exists o,
          (delete_instance_monitors (ZabbixStep.zabbix_provider self) name, o)
            ∈ new) <->
       (exists v,
          (get_host_triggers (ZabbixStep.zabbix_provider self) name, Return v)
            ∈ new /\ truthy v = true)).
Proof.
  unfold DestroyAlarms.do, bind. rewrite call_run.
  destruct (respond _ (world s)) as [[v1|e1] w1]; simpl.
  2:{ split; [done|]. eexists [_]. split; [done|].
      split; [by eexists|]. split; [by repeat constructor|].
      split; [intros c e Hin; in_calls Hin; done|].
      split; [done|]. split; [intros Hok; by inversion Hok|].
      intros name. split.
      - intros (o & Hin). in_calls Hin.
      - intros (v & Hin & _). in_calls Hin. }
  destruct (truthy v1) eqn:T1.
  - rewrite call_run. simpl.
    destruct (respond (delete_instance_monitors _ _) w1) as [[v2|e2] w2]; simpl.
    2:{ split; [done|]. eexists [_; _]. rewrite <- app_assoc.
        split; [done|]. split; [by eexists|]. split; [by repeat constructor|].
        split; [intros c e Hin; in_calls Hin; done|].
        split; [done|].
        split; [intros Hok; inversion Hok as [|? ? _ Hok']; by inversion Hok'|].
        intros name. split.
        - intros (o & Hin). in_calls Hin. exists v1. split; [is_call|done].
        - intros (v & Hin & _). in_calls Hin. eexists. is_call. }
    unfold ret. rewrite call_run. simpl.
    destruct (respond (get_host_triggers _ _) w2) as [[v3|e3] w3]; simpl.
    2:{ split; [done|]. eexists [_; _; _]. rewrite <- !app_assoc.
        split; [done|]. split; [by eexists|]. split; [by repeat constructor|].
        split; [intros c e Hin; in_calls Hin; done|].
        split; [done|].
        split; [intros Hok; inversion Hok as [|? ? _ Hok'];
                inversion Hok' as [|? ? _ Hok'']; by inversion Hok''|].
        intros name. split.
        - intros (o & Hin). in_calls Hin. exists v1. split; [is_call|done].
        - intros (v & Hin & _). in_calls Hin. eexists. is_call. }
    destruct (truthy v3) eqn:T3.
    + rewrite call_run. simpl.
      destruct (respond (delete_instance_monitors _ _) w3) as [[v4|e4] w4];
        simpl.
      * split; [done|]. eexists [_; _; _; _]. rewrite <- !app_assoc.
        split; [done|]. split; [by eexists|]. split; [by repeat constructor|].
        split; [intros c e Hin; in_calls Hin; done|].
        split; [by intros v [= <-]|]. split; [done|].
        intros name. split.
        -- intros (o & Hin). in_calls Hin.
           ++ exists v1. split; [is_call|done].
           ++ exists v3. split; [is_call|done].
        -- intros (v & Hin & Hv). in_calls Hin; eexists; is_call.
      * split; [done|]. eexists [_; _; _; _]. rewrite <- !app_assoc.
        split; [done|]. split; [by eexists|]. split; [by repeat constructor|].
        split; [intros c e Hin; in_calls Hin; done|].
        split; [done|].
        split; [intros Hok; inversion Hok as [|? ? _ Hok'];
                inversion Hok' as [|? ? _ Hok''];
                inversion Hok'' as [|? ? _ Hok''']; by inversion Hok'''|].
        intros name. split.
        -- intros (o & Hin). in_calls Hin.
           ++ exists v1. split; [is_call|done].
           ++ exists v3. split; [is_call|done].
        -- intros (v & Hin & Hv). in_calls Hin; eexists; is_call.
    + split; [done|]. eexists [_; _; _]. rewrite <- !app_assoc.
      split; [done|]. split; [by eexists|]. split; [by repeat constructor|].
      split; [intros c e Hin; in_calls Hin; done|].
      split; [by intros v [= <-]|]. split; [done|].
      intros name. split.
      * intros (o & Hin). in_calls Hin. exists v1. split; [is_call|done].
      * intros (v & Hin & Hv). in_calls Hin; [eexists; is_call|congruence].
  - unfold ret. rewrite call_run. simpl.
    destruct (respond (get_host_triggers _ _) w1) as [[v3|e3] w3]; simpl.
    2:{ split; [done|]. eexists [_; _]. rewrite <- !app_assoc.
        split; [done|]. split; [by eexists|]. split; [by repeat constructor|].
        split; [intros c e Hin; in_calls Hin; done|].
        split; [done|].
        split; [intros Hok; inversion Hok as [|? ? _ Hok']; by inversion Hok'|].
        intros name. split.
        - intros (o & Hin). in_calls Hin.
        - intros (v & Hin & Hv). in_calls Hin. congruence. }
    destruct (truthy v3) eqn:T3.
    + rewrite call_run. simpl.
      destruct (respond (delete_instance_monitors _ _) w3) as [[v4|e4] w4];
        simpl.
      * split; [done|]. eexists [_; _; _]. rewrite <- !app_assoc.
        split; [done|]. split; [by eexists|]. split; [by repeat constructor|].
        split; [intros c e Hin; in_calls Hin; done|].
        split; [by intros v [= <-]|]. split; [done|].
        intros name. split.
        -- intros (o & Hin). in_calls Hin. exists v3. split; [is_call|done].
        -- intros (v & Hin & Hv). in_calls Hin; [congruence|eexists; is_call].
      * split; [done|]. eexists [_; _; _]. rewrite <- !app_assoc.
        split; [done|]. split; [by eexists|]. split; [by repeat constructor|].
        split; [intros c e Hin; in_calls Hin; done|].
        split; [done|].
        split; [intros Hok; inversion Hok as [|? ? _ Hok'];
                inversion Hok' as [|? ? _ Hok'']; by inversion Hok''|].
        intros name. split.
        -- intros (o & Hin). in_calls Hin. exists v3. split; [is_call|done].
        -- intros (v & Hin & Hv). in_calls Hin; [congruence|eexists; is_call].
    + split; [done|]. eexists [_; _]. rewrite <- !app_assoc.
      split; [done|]. split; [by eexists|]. split; [by repeat constructor|].
      split; [intros c e Hin; in_calls Hin; done|].
      split; [by intros v [= <-]|]. split; [done|].
      intros name. split.
      * intros (o & Hin). in_calls Hin.
      * intros (v & Hin & Hv). in_calls Hin; congruence.
Qed.

(** The constructor asks the credential store and the factory only. *)
Lemma init_calls (instance : Instance.t) (s : state zabbix_call World) :
  let (r, s') := ZabbixStep.__init__ instance s in
  workflow_dict s' = workflow_dict s /\
  exists new, calls s' = calls s ++ new /\
    Forall (fun cr => is_creation cr.1 = false /\ is_deletion cr.1 = false)
      new /\
    (forall c e, (c, Raise e) ∈ new -> failure r = Some e) /\
    (forall self, r = Return self -> ZabbixStep.instance self = instance) /\
    (Forall (fun cr => raises cr.2 = false) new -> raises r = false).
Proof.
  unfold ZabbixStep.__init__, bind. rewrite call_run.
  destruct (respond _ (world s)) as [[v1|e1] w1]; simpl.
  2:{ split; [done|]. eexists [_]. split; [done|].
      split; [by repeat constructor|].
      split; [intros c e Hin; in_calls Hin; done|].
      split; [done|]. intros Hok; by inversion Hok. }
  rewrite call_run. simpl.
  destruct (respond _ w1) as [[v2|e2] w2]; simpl.
  2:{ split; [done|]. eexists [_; _]. rewrite <- !app_assoc. split; [done|].
      split; [by repeat constructor|].
      split; [intros c e Hin; in_calls Hin; done|].
      split; [done|].
      intros Hok; inversion Hok as [|? ? _ Hok']; by inversion Hok'. }
  rewrite call_run. simpl.
  destruct (respond _ w2) as [[v3|e3] w3]; simpl.
  2:{ split; [done|]. eexists [_; _; _]. rewrite <- !app_assoc.
      split; [done|]. split; [by repeat constructor|].
      split; [intros c e Hin; in_calls Hin; done|].
      split; [done|].
      intros Hok; inversion Hok as [|? ? _ Hok'];
        inversion Hok' as [|? ? _ Hok'']; by inversion Hok''. }
  split; [done|]. eexists [_; _; _]. rewrite <- !app_assoc.
  split; [done|]. split; [by repeat constructor|].
  split; [intros c e Hin; in_calls Hin; done|].
  split; [by intros self [= <-]|done].
Qed.

Lemma finalize_run (self : ZabbixStep.t) (s : state zabbix_call World) :
  ZabbixStep.finalize self s =
    (Return tt,
     State (workflow_dict s)
       (respond (logout (ZabbixStep.zabbix_provider self)) (world s)).2
       (calls s ++
          [(logout (ZabbixStep.zabbix_provider self),
            (respond (logout (ZabbixStep.zabbix_provider self)) (world s)).1)])).
Proof.
  unfold ZabbixStep.finalize, ZabbixStep.__del__, bind. rewrite call_run.
  by destruct (respond _ (world s)) as [[v|e] w].
Qed.

(** What [CreateAlarms.do] does once [DestroyAlarms.do] has returned: the
    release of the second step's provider, then the two creations. *)
Lemma CreateAlarms_do_creations (self destroy_alarms : ZabbixStep.t)
    (s : state zabbix_call World) :
  let (r, s') :=
    (ZabbixStep.finalize destroy_alarms ;;;
     call (create_instance_basic_monitors (ZabbixStep.zabbix_provider self)
             (Instance.hostname (ZabbixStep.instance self))) ;;;
     call (create_instance_monitors (ZabbixStep.zabbix_provider self)
             (ZabbixStep.instance self)) ;;;
     ret PNone) s in
  workflow_dict s' = workflow_dict s /\
  exists post, calls s' = calls s ++ post /\
    Forall (fun cr => is_deletion cr.1 = false) post /\
    (forall c e, (c, Raise e) ∈ post ->
       (forall p, c <> logout p) -> failure r = Some e) /\
    (forall v, r = Return v -> v = PNone) /\
    (Forall (fun cr => raises cr.2 = false) post -> r = Return PNone).
Proof.
  unfold bind at 1. rewrite finalize_run.
  set (r2 := (respond (logout (ZabbixStep.zabbix_provider destroy_alarms))
                (world s)).1).
  set (w2 := (respond (logout (ZabbixStep.zabbix_provider destroy_alarms))
                (world s)).2).
  unfold bind. rewrite call_run. simpl.
  destruct (respond (create_instance_basic_monitors _ _) w2)
    as [[v3|e3] w3]; simpl.
  2:{ split; [done|]. eexists [_; _].
      split; [by rewrite <- !app_assoc|].
      split; [by repeat constructor|].
      split.
      { intros c e Hin Hlogout.
        in_calls Hin; [by edestruct Hlogout|done]. }
      split; [done|]. intros Hall.
      inversion Hall as [|? ? _ Hall']. by inversion Hall'. }
  rewrite call_run. simpl.
  destruct (respond (create_instance_monitors _ _) w3) as [[v4|e4] w4]; simpl.
  2:{ split; [done|]. eexists [_; _; _].
      split; [by rewrite <- !app_assoc|].
      split; [by repeat constructor|].
      split.
      { intros c e Hin Hlogout.
        in_calls Hin; [by edestruct Hlogout|done]. }
      split; [done|]. intros Hall.
      inversion Hall as [|? ? _ Hall']. inversion Hall' as [|? ? _ Hall''].
      by inversion Hall''. }
  split; [done|]. eexists [_; _; _].
  split; [by rewrite <- !app_assoc|].
  split; [by repeat constructor|].
  split.
  { intros c e Hin Hlogout. in_calls Hin. by edestruct Hlogout. }
  split; [by intros v [= <-]|done].
Qed.

Lemma CreateAlarms_do_unfold (self : ZabbixStep.t)
    (s : state zabbix_call World) :
  CreateAlarms.do self s =
    match ZabbixStep.__init__ (ZabbixStep.instance self) s with
    | (Raise e, s0) => (Raise e, s0)
    | (Return destroy_alarms, s0) =>
        match DestroyAlarms.do destroy_alarms s0 with
        | (Raise e, s1) => (Raise e, s1)
        | (Return _, s1) =>
            (ZabbixStep.finalize destroy_alarms ;;;
             call (create_instance_basic_monitors
                     (ZabbixStep.zabbix_provider self)
                     (Instance.hostname (ZabbixStep.instance self))) ;;;
             call (create_instance_monitors (ZabbixStep.zabbix_provider self)
                     (ZabbixStep.instance self)) ;;;
             ret PNone) s1
        end
    end.
Proof.
  unfold CreateAlarms.do. unfold bind at 1.
  destruct (ZabbixStep.__init__ _ s) as [[destroy_alarms|e0] s0]; [|done].
  unfold bind at 1.
  by destruct (DestroyAlarms.do destroy_alarms s0) as [[v1|e1] s1].
Qed.

(** [CreateAlarms.do], call by call: the calls of the constructor and of
    [DestroyAlarms.do] first, none of them a creation, then the release of
    the provider and the two creations, none of them a deletion. *)
Lemma CreateAlarms_do_calls (self : ZabbixStep.t)
    (s : state zabbix_call World) :
  let (r, s') := CreateAlarms.do self s in
  workflow_dict s' = workflow_dict s /\
  exists pre post, calls s' = calls s ++ pre ++ post /\
    Forall (fun cr => is_creation cr.1 = false) pre /\
    Forall (fun cr => is_deletion cr.1 = false) post /\
    (forall c e, (c, Raise e) ∈ pre ++ post ->
       (forall p, c <> logout p) -> failure r = Some e) /\
    (forall v, r = Return v -> v = PNone) /\
    (Forall (fun cr => raises cr.2 = false) (pre ++ post) -> r = Return PNone).
Proof.
  unfold CreateAlarms.do. unfold bind at 1.
  pose proof (init_calls (ZabbixStep.instance self) s) as Hinit.
  destruct (ZabbixStep.__init__ (ZabbixStep.instance self) s)
    as [[destroy_alarms|e0] s0].
  2:{ destruct Hinit as (Hwd & new & Hcalls & Hno & Hraise & _ & Hok).
      split; [done|]. exists new, []. rewrite app_nil_r.
      split; [done|]. split; [|split; [done|]].
      { eapply Forall_impl; [exact Hno|]. by intros ? [? ?]. }
      split; [intros c e Hin _; eauto|].
      split; [done|]. intros Hall. by specialize (Hok Hall). }
  destruct Hinit as (Hwd0 & new0 & Hcalls0 & Hno0 & Hraise0 & _ & _).
  unfold bind at 1.
  pose proof (DestroyAlarms_do_calls destroy_alarms s0) as Hd.
  destruct (DestroyAlarms.do destroy_alarms s0) as [[v1|e1] s1].
  2:{ destruct Hd as (Hwd1 & new1 & Hcalls1 & _ & Hno1 & Hraise1 & _ & Hok1 & _).
      split; [congruence|]. exists (new0 ++ new1), []. rewrite app_nil_r.
      split; [by rewrite Hcalls1, Hcalls0, app_assoc|].
      split; [|split; [done|]].
      { apply Forall_app. split; [|done].
        eapply Forall_impl; [exact Hno0|]. by intros ? [? ?]. }
      split.
      { intros c e Hin _. apply elem_of_app in Hin as [Hin|Hin]; [|eauto].
        by specialize (Hraise0 c e Hin). }
      split; [done|]. intros Hall. apply Forall_app in Hall as [_ Hall].
      by specialize (Hok1 Hall). }
  destruct Hd as (Hwd1 & new1 & Hcalls1 & _ & Hno1 & Hraise1 & _ & _ & _).
  pose proof (CreateAlarms_do_creations self destroy_alarms s1) as Hc.
  destruct (bind (ZabbixStep.finalize destroy_alarms) _ s1) as [r s'].
  destruct Hc as (Hwd2 & post & Hcalls2 & Hnodel & Hraise2 & Hnone & Hok2).
  split; [congruence|]. exists (new0 ++ new1), post.
  split; [by rewrite Hcalls2, Hcalls1, Hcalls0, <- !app_assoc|].
  split.
  { apply Forall_app. split; [|done].
    eapply Forall_impl; [exact Hno0|]. by intros ? [? ?]. }
  split; [done|]. split.
  { intros c e Hin Hlogout. rewrite <- app_assoc in Hin.
    apply elem_of_app in Hin as [Hin|Hin];
      [by specialize (Hraise0 c e Hin)|].
    apply elem_of_app in Hin as [Hin|Hin];
      [by specialize (Hraise1 c e Hin)|eauto]. }
  split; [done|]. intros Hall. apply Forall_app in Hall as [_ Hall]. eauto.
Qed.

(** In a log made of calls that create nothing followed by calls that
    delete nothing, every deletion comes before every creation. *)
Lemma deletions_before_creations (pre post : list (zabbix_call * outcome pyval))
    i j c1 o1 c2 o2 :
  Forall (fun cr => is_creation cr.1 = false) pre ->
  Forall (fun cr => is_deletion cr.1 = false) post ->
  (pre ++ post) !! i = Some (c1, o1) -> is_deletion c1 = true ->
  (pre ++ post) !! j = Some (c2, o2) -> is_creation c2 = true ->
  i < j.
Proof.
  intros Hpre Hpost Hi Hdel Hj Hcre.
  destruct (decide (i < length pre)) as [Hlt|Hge].
  - destruct (decide (j < length pre)) as [Hlt'|Hge']; [|lia].
    rewrite lookup_app_l in Hj by done.
    rewrite Forall_lookup in Hpre. specialize (Hpre _ _ Hj). simpl in Hpre.
    congruence.
  - rewrite lookup_app_r in Hi by lia.
    rewrite Forall_lookup in Hpost. specialize (Hpost _ _ Hi). simpl in Hpost.
    congruence.
Qed.

End Zabbix_facts.

Section Zabbix_properties.
Context `{Collaborator zabbix_call}.

(** C5. Whatever the state of the provider, [DestroyAlarms.do] asks for the
    triggers of the instance's hostname first, and it calls
    [delete_instance_monitors] for a name, the hostname or the dns, if and
    only if [get_host_triggers] returned it a non-empty result for that
    name; when there are no triggers for either name it makes the two
    queries, deletes nothing and returns normally. *)
Theorem DestroyAlarms_do_deletes_iff_triggers (self : ZabbixStep.t)
    (s : state zabbix_call World) :
  let zabbix_provider := ZabbixStep.zabbix_provider self in
  let hostname := Host.hostname (Instance.hostname (ZabbixStep.instance self)) in
  let dns := Instance.dns (ZabbixStep.instance self) in
  let new := new_calls s (DestroyAlarms.do self s).2 in
  (exists o, new !! 0 = Some (get_host_triggers zabbix_provider hostname, o)) /\
  (forall name,
     (exists o, (delete_instance_monitors zabbix_provider name, o) ∈ new) <->
     (exists v, (get_host_triggers zabbix_provider name, Return v) ∈ new /\
                truthy v = true)) /\
  (forall v1 w1 v2 w2,
     respond (get_host_triggers zabbix_provider hostname) (world s)
       = (Return v1, w1) ->
     truthy v1 = false ->
     respond (get_host_triggers zabbix_provider dns) w1 = (Return v2, w2) ->
     truthy v2 = false ->
     DestroyAlarms.do self s =
       (Return PNone,
        State (workflow_dict s) w2
          (calls s ++ [(get_host_triggers zabbix_provider hostname, Return v1);
                       (get_host_triggers zabbix_provider dns, Return v2)]))).
Proof.
  intros zabbix_provider hostname dns new.
  split; [|split].
  - subst new. pose proof (DestroyAlarms_do_calls self s) as Hd.
    destruct (DestroyAlarms.do self s) as [r s'].
    destruct Hd as (_ & l & Hcalls & Hfirst & _). simpl.
    by rewrite (new_calls_app _ _ _ Hcalls).
  - subst new. pose proof (DestroyAlarms_do_calls self s) as Hd.
    destruct (DestroyAlarms.do self s) as [r s'].
    destruct Hd as (_ & l & Hcalls & _ & _ & _ & _ & _ & Hiff). simpl.
    by rewrite (new_calls_app _ _ _ Hcalls).
  - intros v1 w1 v2 w2 E1 T1 E2 T2.
    unfold DestroyAlarms.do, bind. rewrite call_run.
    fold zabbix_provider hostname dns. rewrite E1. simpl. rewrite T1.
    unfold ret. rewrite call_run. simpl. rewrite E2. simpl. rewrite T2.
    by rewrite <- app_assoc.
Qed.

(** C10. [CreateAlarms.do] first builds a [DestroyAlarms] step on its own
    instance and runs its [do]; it goes on to the creations only when that
    [do] has returned, and what it calls from then on deletes nothing.  So
    in the calls [CreateAlarms.do] makes, every deletion of monitors comes
    before every creation. *)
Theorem CreateAlarms_do_destroys_before_creating (self : ZabbixStep.t)
    (s : state zabbix_call World) :
  let new := new_calls s (CreateAlarms.do self s).2 in
  match ZabbixStep.__init__ (ZabbixStep.instance self) s with
  | (Raise e, s0) => CreateAlarms.do self s = (Raise e, s0)
  | (Return destroy_alarms, s0) =>
      ZabbixStep.instance destroy_alarms = ZabbixStep.instance self /\
      match DestroyAlarms.do destroy_alarms s0 with
      | (Raise e, s1) => CreateAlarms.do self s = (Raise e, s1)
      | (Return _, s1) =>
          exists post,
            calls (CreateAlarms.do self s).2 = calls s1 ++ post /\
            Forall (fun cr => is_deletion cr.1 = false) post
      end
  end /\
  (forall i j c1 o1 c2 o2,
     new !! i = Some (c1, o1) -> is_deletion c1 = true ->
     new !! j = Some (c2, o2) -> is_creation c2 = true ->
     i < j).
Proof.
  intros new. split.
  - rewrite !CreateAlarms_do_unfold.
    pose proof (init_calls (ZabbixStep.instance self) s) as Hinit.
    destruct (ZabbixStep.__init__ (ZabbixStep.instance self) s)
      as [[destroy_alarms|e0] s0]; [|done].
    destruct Hinit as (_ & _ & _ & _ & _ & Hinst & _).
    split; [by apply Hinst|].
    destruct (DestroyAlarms.do destroy_alarms s0) as [[v1|e1] s1]; [|done].
    pose proof (CreateAlarms_do_creations self destroy_alarms s1) as Hc.
    destruct (bind (ZabbixStep.finalize destroy_alarms) _ s1) as [r s'].
    destruct Hc as (_ & post & Hcalls & Hnodel & _).
    by exists post.
  - subst new. pose proof (CreateAlarms_do_calls self s) as Hc.
    destruct (CreateAlarms.do self s) as [r s'].
    destruct Hc as (_ & pre & post & Hcalls & Hpre & Hpost & _). simpl.
    rewrite (new_calls_app _ _ _ Hcalls).
    intros i j c1 o1 c2 o2. by apply deletions_before_creations.
Qed.

End Zabbix_properties.

(** ** The step boundary *)

Lemma failure_Some {A} (o : outcome A) e : failure o = Some e -> o = Raise e.
Proof. destruct o; simpl; congruence. Qed.

Section Step_boundary.
Context `{N : Collaborator nfsaas_call} `{Util} `{ErrorCodes}.
Context `{Z : Collaborator zabbix_call}.

(** The [try] block of [GrantNFSAccess.do] returns [True] or nothing. *)
Lemma do_try_returns_True (s : state nfsaas_call (World (C := nfsaas_call))) v :
  (GrantNFSAccess.do_try s).1 = Return v -> v = PBool true.
Proof.
  unfold GrantNFSAccess.do_try, bind, wd_getitem, lift.
  destruct (dict_getitem _ "databaseinfra"); [|done].
  destruct (dict_getitem _ "hosts_and_exports") as [x|]; [|done].
  destruct (iter x); [|done].
  destruct (GrantNFSAccess.for_hosts_and_exports _ _ _) as [[|] ?]; [|done].
  simpl. congruence.
Qed.

(** C1, as the code has it.  On a [workflow_dict] with the 'exceptions'
    structure, [GrantNFSAccess.do] and [GrantNFSAccess.undo] raise nothing:
    a failure inside [do] is caught at the step boundary and becomes one
    entry of the error log.  [DestroyAlarms.do] and [CreateAlarms.do] have
    no handler: the failure of a collaborator call they make reaches their
    caller as it is, and the [workflow_dict] is not touched. *)
Theorem GrantNFSAccess_catches_and_Zabbix_steps_propagate
    (s : state nfsaas_call (World (C := nfsaas_call)))
    exceptions error_codes traceback
    (self : ZabbixStep.t) (z : state zabbix_call (World (C := zabbix_call))) :
  exceptions_structure (workflow_dict s) exceptions error_codes traceback ->
  (failure (GrantNFSAccess.do s).1 = None /\
   failure (GrantNFSAccess.undo s).1 = None /\
   forall e, (GrantNFSAccess.do_try s).1 = Raise e ->
     (GrantNFSAccess.do s).1 = Return (PBool false) /\
     workflow_dict (GrantNFSAccess.do s).2 =
       with_error (workflow_dict s) exceptions error_codes traceback
         DBAAS_0021 (full_stack e)) /\
  (forall c e, (c, Raise e) ∈ new_calls z (DestroyAlarms.do self z).2 ->
     (DestroyAlarms.do self z).1 = Raise e /\
     workflow_dict (DestroyAlarms.do self z).2 = workflow_dict z) /\
  (forall c e, (c, Raise e) ∈ new_calls z (CreateAlarms.do self z).2 ->
     (forall p, c <> logout p) ->
     (CreateAlarms.do self z).1 = Raise e /\
     workflow_dict (CreateAlarms.do self z).2 = workflow_dict z).
Proof.
  intros Hex. split; [|split].
  - rewrite do_unfold. pose proof (do_try_calls s) as Htry.
    destruct (GrantNFSAccess.do_try s) as [[v|e] s1];
      destruct Htry as (Hwd & _); simpl.
    + by repeat split.
    + rewrite <- Hwd in Hex.
      rewrite (except_Exception_ok s1 _ _ _ e Hex). simpl.
      split; [done|]. split; [done|]. intros e' [= <-]. by rewrite Hwd.
  - intros c e Hin. pose proof (DestroyAlarms_do_calls self z) as Hd.
    destruct (DestroyAlarms.do self z) as [r z'].
    destruct Hd as (Hwd & new & Hcalls & _ & _ & Hraise & _). simpl in *.
    rewrite (new_calls_app _ _ _ Hcalls) in Hin.
    split; [|done]. apply failure_Some. eauto.
  - intros c e Hin Hlogout. pose proof (CreateAlarms_do_calls self z) as Hc.
    destruct (CreateAlarms.do self z) as [r z'].
    destruct Hc as (Hwd & pre & post & Hcalls & _ & _ & Hraise & _).
    simpl in *. rewrite (new_calls_app _ _ _ Hcalls) in Hin.
    split; [|done]. apply failure_Some. eauto.
Qed.

(** C4, as the code has it.  [GrantNFSAccess.do] and [GrantNFSAccess.undo]
    return [True] or [False] and nothing else, [do] returning on every
    [workflow_dict] with the 'exceptions' structure and [undo] always.
    [ZabbixStep.undo] returns [None]; [DestroyAlarms.do] and
    [CreateAlarms.do] return [None], which they do when none of their calls
    fails. *)
Theorem GrantNFSAccess_returns_bool_and_Zabbix_steps_None
    (s : state nfsaas_call (World (C := nfsaas_call)))
    exceptions error_codes traceback
    (self : ZabbixStep.t) (z : state zabbix_call (World (C := zabbix_call))) :
  exceptions_structure (workflow_dict s) exceptions error_codes traceback ->
  ((exists b, (GrantNFSAccess.do s).1 = Return (PBool b)) /\
   (forall (s0 : state nfsaas_call (World (C := nfsaas_call))) v,
      (GrantNFSAccess.do s0).1 = Return v -> exists b, v = PBool b) /\
   (GrantNFSAccess.undo s).1 = Return (PBool true)) /\
  ZabbixStep.undo self z = (Return PNone, z) /\
  ((forall v, (DestroyAlarms.do self z).1 = Return v -> v = PNone) /\
   (Forall (fun cr => raises cr.2 = false)
      (new_calls z (DestroyAlarms.do self z).2) ->
    (DestroyAlarms.do self z).1 = Return PNone)) /\
  ((forall v, (CreateAlarms.do self z).1 = Return v -> v = PNone) /\
   (Forall (fun cr => raises cr.2 = false)
      (new_calls z (CreateAlarms.do self z).2) ->
    (CreateAlarms.do self z).1 = Return PNone)).
Proof.
  intros Hex. split; [|split; [done|split]].
  - split; [|split; [|done]].
    + rewrite do_unfold. pose proof (do_try_calls s) as Htry.
      pose proof (do_try_returns_True s) as Htrue.
      destruct (GrantNFSAccess.do_try s) as [[v|e] s1];
        destruct Htry as (Hwd & _); simpl in *.
      * exists true. by rewrite (Htrue v eq_refl).
      * rewrite <- Hwd in Hex.
        rewrite (except_Exception_ok s1 _ _ _ e Hex). by exists false.
    + intros s0 v. rewrite do_unfold.
      pose proof (do_try_returns_True s0) as Htrue.
      destruct (GrantNFSAccess.do_try s0) as [[v0|e] s1]; simpl in *.
      * intros [= <-]. exists true. by apply Htrue.
      * pose proof (except_Exception_any s1 e) as Hh.
        destruct (GrantNFSAccess.except_Exception e s1) as [r s2].
        destruct Hh as (_ & _ & _ & Hret). simpl. intros ->.
        exists false. by apply Hret.
  - pose proof (DestroyAlarms_do_calls self z) as Hd.
    destruct (DestroyAlarms.do self z) as [r z'].
    destruct Hd as (_ & new & Hcalls & _ & _ & _ & Hnone & Hok & _).
    simpl. by rewrite (new_calls_app _ _ _ Hcalls).
  - pose proof (CreateAlarms_do_calls self z) as Hc.
    destruct (CreateAlarms.do self z) as [r z'].
    destruct Hc as (_ & pre & post & Hcalls & _ & _ & _ & Hnone & Hok).
    simpl. by rewrite (new_calls_app _ _ _ Hcalls).
Qed.

End Step_boundary.

(** ** The sequence executor *)

Section StepSequence_facts.
Context {Ctx : Type}.
Implicit Types (steps : list (StepSequence.Step Ctx)) (c : Ctx).

Import StepSequence.

Lemma forallb_seq_S (f : nat -> bool) a n :
  forallb f (seq (S a) n) = forallb (fun i => f (S i)) (seq a n).
Proof.
  revert a. induction n as [|n IH]; intros a; simpl; [done|].
  by rewrite IH.
Qed.

Lemma first_to_fail_here step rest c :
  first_to_fail (step :: rest) c 0 = true -> fst (do step c) = false.
Proof.
  unfold first_to_fail. simpl. intros Hf.
  apply andb_true_iff in Hf as [Hf _]. by apply negb_true_iff in Hf.
Qed.

Lemma first_to_fail_later step rest c k :
  first_to_fail (step :: rest) c (S k) = true ->
  fst (do step c) = true /\ first_to_fail rest (snd (do step c)) k = true.
Proof.
  unfold first_to_fail. intros Hf.
  apply andb_true_iff in Hf as [Hk Hbefore].
  change (seq 0 (S k)) with (0 :: seq 1 k) in Hbefore.
  cbn [forallb] in Hbefore.
  apply andb_true_iff in Hbefore as [H0 Hbefore].
  rewrite forallb_seq_S in Hbefore.
  split; [done|]. apply andb_true_iff. split; [exact Hk|exact Hbefore].
Qed.

(** The forward pass up to the first step that fails. *)
Lemma forward_fails steps i (st : run_state Ctx) k :
  first_to_fail steps (context st) k = true ->
  exists c',
    forward steps i st =
      (Some (i + k),
       RunState c' (completed st ++ seq i (S k))
                (trace st ++ (Do <$> seq i (S k)))).
Proof.
  revert i st k. induction steps as [|step rest IH]; intros i st k Hf.
  - unfold first_to_fail in Hf. by rewrite lookup_nil in Hf.
  - destruct k as [|k].
    + apply first_to_fail_here in Hf. simpl.
      destruct (do step (context st)) as [ok c1]. simpl in Hf. subst ok.
      exists c1. by rewrite Nat.add_0_r.
    + apply first_to_fail_later in Hf as [Hok Hf]. simpl.
      destruct (do step (context st)) as [ok c1]. simpl in Hok, Hf. subst ok.
      destruct (IH (S i) (RunState c1 (completed st ++ [i])
                            (trace st ++ [Do i])) k Hf) as [c' ->].
      exists c'. simpl. rewrite <- !app_assoc. simpl.
      by rewrite Nat.add_succ_r.
Qed.

(** The rollback invokes [undo] on each index it is given, in the order
    given, whatever the outcomes. *)
Lemma rollback_trace steps js (st : run_state Ctx) :
  Forall (fun j => is_Some (steps !! j)) js ->
  trace (rollback steps js st).2 = trace st ++ (Undo <$> js) /\
  completed (rollback steps js st).2 = completed st.
Proof.
  intros Hjs. revert st. induction Hjs as [|j js [step Hj] _ IH]; intros st.
  - simpl. by rewrite app_nil_r.
  - simpl. rewrite Hj.
    destruct (undo step (context st)) as [ok c1].
    specialize (IH (RunState c1 (completed st) (trace st ++ [Undo j]))).
    destruct (rollback steps js _) as [failed st']. simpl in *.
    destruct IH as [-> ->]. by rewrite <- app_assoc.
Qed.

Lemma first_to_fail_lt steps c k :
  first_to_fail steps c k = true -> k < length steps.
Proof.
  unfold first_to_fail. intros Hf. apply andb_true_iff in Hf as [Hf _].
  destruct (steps !! k) eqn:E; [|done]. by apply lookup_lt_Some in E.
Qed.

Lemma count_Do_seq a n i :
  count_occ event_eq_dec (Do <$> seq a n) (Do i)
    = if decide (a <= i < a + n) then 1 else 0.
Proof.
  revert a. induction n as [|n IH]; intros a.
  - simpl. case_decide; [lia|done].
  - change (seq a (S n)) with (a :: seq (S a) n). rewrite fmap_cons.
    destruct (decide (a = i)) as [->|Hne].
    + rewrite count_occ_cons_eq by done. rewrite IH.
      repeat case_decide; lia.
    + rewrite count_occ_cons_neq by congruence. rewrite IH.
      repeat case_decide; lia.
Qed.

Lemma count_Undo_seq a n i :
  count_occ event_eq_dec (Undo <$> seq a n) (Undo i)
    = if decide (a <= i < a + n) then 1 else 0.
Proof.
  revert a. induction n as [|n IH]; intros a.
  - simpl. case_decide; [lia|done].
  - change (seq a (S n)) with (a :: seq (S a) n). rewrite fmap_cons.
    destruct (decide (a = i)) as [->|Hne].
    + rewrite count_occ_cons_eq by done. rewrite IH.
      repeat case_decide; lia.
    + rewrite count_occ_cons_neq by congruence. rewrite IH.
      repeat case_decide; lia.
Qed.

Lemma count_Do_Undo (l : list nat) i :
  count_occ event_eq_dec (Undo <$> l) (Do i) = 0 /\
  count_occ event_eq_dec (Do <$> l) (Undo i) = 0.
Proof.
  induction l as [|x l [IH1 IH2]]; [done|].
  rewrite !fmap_cons. by rewrite !count_occ_cons_neq.
Qed.

Lemma filter_events (l : list nat) :
  List.filter is_do (Do <$> l) = Do <$> l /\
  List.filter is_undo (Do <$> l) = [] /\
  List.filter is_do (Undo <$> l) = [] /\
  List.filter is_undo (Undo <$> l) = Undo <$> l.
Proof.
  induction l as [|x l (IH1 & IH2 & IH3 & IH4)]; [done|].
  rewrite !fmap_cons. simpl. by rewrite IH1, IH2, IH3, IH4.
Qed.

(** C3. When step [k] is the first to fail, the run invokes [do] once on
    each of the steps 0 to [k], in order, and on no later step; it then
    invokes [undo] once on each step that executed [do], from [k] down to 0,
    whatever the outcomes of the undos; so there are as many undo
    invocations as do invocations. *)
Theorem run_undoes_every_executed_step steps c k :
  first_to_fail steps c k = true ->
  let r := run steps c in
  events r = (Do <$> seq 0 (S k)) ++ (Undo <$> rev (seq 0 (S k))) /\
  failed_step r = Some k /\
  (forall i, count_occ event_eq_dec (events r) (Do i)
             = if decide (i <= k) then 1 else 0) /\
  (forall i, count_occ event_eq_dec (events r) (Undo i)
             = if decide (i <= k) then 1 else 0) /\
  length (List.filter is_undo (events r))
    = length (List.filter is_do (events r)).
Proof.
  intros Hf r.
  assert (events r = (Do <$> seq 0 (S k)) ++ (Undo <$> rev (seq 0 (S k))) /\
          failed_step r = Some k) as [Hev Hk].
  { subst r. unfold run.
    destruct (forward_fails steps 0 (RunState c [] []) k Hf) as [c' ->].
    cbn [completed trace app Nat.add].
    set (st := RunState c' _ _).
    assert (Forall (fun j => is_Some (steps !! j)) (rev (seq 0 (S k)))) as Hjs.
    { apply Forall_forall. intros j Hj.
      apply list_elem_of_In, in_rev, in_seq in Hj. apply lookup_lt_is_Some.
      pose proof (first_to_fail_lt steps c k Hf). lia. }
    pose proof (rollback_trace steps _ st Hjs) as [Htr _].
    destruct (rollback steps (rev (seq 0 (S k))) st) as [failed st'].
    simpl in *. by rewrite Htr. }
  split; [done|]. split; [done|]. rewrite Hev.
  replace (Undo <$> rev (seq 0 (S k))) with (rev (Undo <$> seq 0 (S k)))
    by (symmetry; apply map_rev).
  split; [|split].
  - intros i. rewrite count_occ_app, count_occ_rev, count_Do_seq.
    rewrite (proj1 (count_Do_Undo _ i)). repeat case_decide; lia.
  - intros i. rewrite count_occ_app, count_occ_rev, count_Undo_seq.
    rewrite (proj2 (count_Do_Undo _ i)). repeat case_decide; lia.
  - rewrite !List.filter_app.
    replace (rev (Undo <$> seq 0 (S k))) with (Undo <$> rev (seq 0 (S k)))
      by apply map_rev.
    destruct (filter_events (seq 0 (S k))) as (-> & -> & _ & _).
    destruct (filter_events (rev (seq 0 (S k)))) as (_ & _ & -> & ->).
    rewrite app_nil_r. cbn [app].
    by rewrite !length_fmap, length_rev.
Qed.

End StepSequence_facts.

(** ** The MongoDB driver *)

(** C9. [check_status] classifies a failure of the script by the text it
    printed: whatever the exit code, an output with the connection pattern
    (and not the authentication one) raises [ConnectionError], and an output
    with the authentication pattern (and not the connection one) raises
    [AuthenticationError]. *)
Theorem check_status_classifies_by_output (SCRIPT : string)
    (call_script : string -> list string -> MongoDB.driver_error + string)
    script_name exit_code stdout :
  call_script SCRIPT ["status"]
    = inl (MongoDB.ErrorRunningScript script_name exit_code stdout) ->
  (MongoDB.contains "couldn't connect to server" stdout = true ->
   MongoDB.contains "auth fails" stdout = false ->
   MongoDB.check_status SCRIPT call_script = inl MongoDB.ConnectionError) /\
  (MongoDB.contains "auth fails" stdout = true ->
   MongoDB.contains "couldn't connect to server" stdout = false ->
   MongoDB.check_status SCRIPT call_script = inl MongoDB.AuthenticationError).
Proof.
  intros Hcall. unfold MongoDB.check_status. rewrite Hcall.
  unfold MongoDB.classification. simpl.
  split; intros H1 H2; by rewrite ?H1, ?H2.
Qed.

(** ** The properties on the test doubles *)

Section On_test_doubles.
#[local] Existing Instance Mock.nfsaas.
#[local] Existing Instance Mock.util.
#[local] Existing Instance Mock.error_codes.

(** The second host of three is refused: [do] reports failure and logs one
    pair; the third host is not visited. *)
Lemma GrantNFSAccess_do_logs_failure_witness :
  exceptions_structure
    (workflow_dict (Mock.start Mock.workflow_dict_refused))
    Mock.no_errors [] [] /\
  new_calls (Mock.start Mock.workflow_dict_refused)
    (GrantNFSAccess.do (Mock.start Mock.workflow_dict_refused)).2 !! 1
    = Some (grant_access (PStr "dev") (PStr "host-2") (PInt 12),
            Raise (CollaboratorError "access denied")) /\
  (GrantNFSAccess.do (Mock.start Mock.workflow_dict_refused)).1
    = Return (PBool false) /\
  log_of "error_codes"
    (workflow_dict (GrantNFSAccess.do (Mock.start Mock.workflow_dict_refused)).2)
    = Some [PStr "DBAAS_0021"].
Proof.
  assert (exceptions_structure
            (workflow_dict (Mock.start Mock.workflow_dict_refused))
            Mock.no_errors [] []) as Hex by (by vm_compute).
  assert (new_calls (Mock.start Mock.workflow_dict_refused)
            (GrantNFSAccess.do (Mock.start Mock.workflow_dict_refused)).2 !! 1
          = Some (grant_access (PStr "dev") (PStr "host-2") (PInt 12),
                  Raise (CollaboratorError "access denied")))
    as Hcall by (vm_compute; reflexivity).
  split; [exact Hex|]. split; [exact Hcall|].
  pose proof (GrantNFSAccess_do_logs_failure
                (Mock.start Mock.workflow_dict_refused)
                Mock.no_errors [] [] 1 _ _ Hex Hcall) as (Hr & Hcodes & _).
  split; [exact Hr|exact Hcodes].
Defined.

(** Two hosts the provider accepts: two grants, in order, and [True]. *)
Lemma GrantNFSAccess_do_grants_each_entry_witness :
  workflow_dict (Mock.start Mock.workflow_dict_ok) !! "databaseinfra"
    = Some Mock.databaseinfra /\
  getattr Mock.databaseinfra "environment" = Return (PStr "dev") /\
  workflow_dict (Mock.start Mock.workflow_dict_ok) !! "hosts_and_exports"
    = Some (PList [Mock.entry "host-1" 11; Mock.entry "host-3" 13]) /\
  Forall2 (fun entry hx => host_and_export entry hx.1 hx.2)
    [Mock.entry "host-1" 11; Mock.entry "host-3" 13]
    [(PStr "host-1", PInt 11); (PStr "host-3", PInt 13)] /\
  Forall (fun cr => raises cr.2 = false)
    (new_calls (Mock.start Mock.workflow_dict_ok)
       (GrantNFSAccess.do (Mock.start Mock.workflow_dict_ok)).2) /\
  (GrantNFSAccess.do (Mock.start Mock.workflow_dict_ok)).1
    = Return (PBool true) /\
  (new_calls (Mock.start Mock.workflow_dict_ok)
     (GrantNFSAccess.do (Mock.start Mock.workflow_dict_ok)).2).*1
    = [grant_access (PStr "dev") (PStr "host-1") (PInt 11);
       grant_access (PStr "dev") (PStr "host-3") (PInt 13)] /\
  workflow_dict (GrantNFSAccess.do (Mock.start Mock.workflow_dict_ok)).2
    = Mock.workflow_dict_ok.
Proof.
  assert (workflow_dict (Mock.start Mock.workflow_dict_ok) !! "databaseinfra"
          = Some Mock.databaseinfra) as H1 by reflexivity.
  assert (getattr Mock.databaseinfra "environment" = Return (PStr "dev"))
    as H2 by reflexivity.
  assert (workflow_dict (Mock.start Mock.workflow_dict_ok)
            !! "hosts_and_exports"
          = Some (PList [Mock.entry "host-1" 11; Mock.entry "host-3" 13]))
    as H3 by reflexivity.
  assert (Forall2 (fun entry hx => host_and_export entry hx.1 hx.2)
            [Mock.entry "host-1" 11; Mock.entry "host-3" 13]
            [(PStr "host-1", PInt 11); (PStr "host-3", PInt 13)]) as H4.
  { repeat constructor; eexists; (split; [reflexivity|]);
      split; reflexivity. }
  assert (Forall (fun cr => raises cr.2 = false)
            (new_calls (Mock.start Mock.workflow_dict_ok)
               (GrantNFSAccess.do (Mock.start Mock.workflow_dict_ok)).2))
    as H5 by (vm_compute; repeat constructor).
  repeat (split; [assumption|]).
  exact (GrantNFSAccess_do_grants_each_entry
           (Mock.start Mock.workflow_dict_ok) _ _ _ _ H1 H2 H3 H4 H5).
Defined.

(** The refused host again: the [workflow_dict] after the failed [do] is
    the one before with one pair more. *)
Lemma GrantNFSAccess_only_appends_witness :
  (GrantNFSAccess.do (Mock.start Mock.workflow_dict_refused)).1
    = Return (PBool false) /\
  only_appends Mock.workflow_dict_refused
    (workflow_dict
       (GrantNFSAccess.do (Mock.start Mock.workflow_dict_refused)).2) /\
  exists exceptions error_codes traceback e,
    exceptions_structure Mock.workflow_dict_refused
      exceptions error_codes traceback /\
    workflow_dict (GrantNFSAccess.do (Mock.start Mock.workflow_dict_refused)).2
      = with_error Mock.workflow_dict_refused exceptions error_codes traceback
          DBAAS_0021 (full_stack e).
Proof.
  assert ((GrantNFSAccess.do (Mock.start Mock.workflow_dict_refused)).1
          = Return (PBool false)) as Hr by (by vm_compute).
  pose proof (GrantNFSAccess_only_appends
                (Mock.start Mock.workflow_dict_refused)) as (Happ & Hfail & _).
  split; [exact Hr|]. split; [exact Happ|exact (Hfail Hr)].
Defined.

End On_test_doubles.

Section On_a_Zabbix_server_down.
#[local] Existing Instance Mock.nfsaas.
#[local] Existing Instance Mock.util.
#[local] Existing Instance Mock.error_codes.
#[local] Existing Instance Mock.zabbix_down.

(** C1 fails on the code: with the Zabbix server down, [DestroyAlarms.do]
    and [CreateAlarms.do] raise the collaborator's failure and log nothing;
    and on a [workflow_dict] without the 'exceptions' structure the handler
    of [GrantNFSAccess.do] raises in its turn. *)
Lemma steps_raise_counterexample :
  DestroyAlarms.do Mock.step (Mock.zstart ∅)
    = (Raise (CollaboratorError "zabbix unreachable"),
       State ∅ ∅
         [(get_host_triggers (PStr "provider") "db01.host",
           Raise (CollaboratorError "zabbix unreachable"))]) /\
  (CreateAlarms.do Mock.step (Mock.zstart ∅)).1
    = Raise (CollaboratorError "zabbix unreachable") /\
  (GrantNFSAccess.do (Mock.start Mock.workflow_dict_bare)).1
    = Raise (KeyError "exceptions").
Proof. by vm_compute. Qed.

(** On the same inputs, what does hold: the step with a handler and a
    well-formed [workflow_dict] raises nothing, the steps without one pass
    the failure on. *)
Lemma GrantNFSAccess_catches_and_Zabbix_steps_propagate_witness :
  exceptions_structure
    (workflow_dict (Mock.start Mock.workflow_dict_refused))
    Mock.no_errors [] [] /\
  failure (GrantNFSAccess.do (Mock.start Mock.workflow_dict_refused)).1
    = None /\
  (DestroyAlarms.do Mock.step (Mock.zstart ∅)).1
    = Raise (CollaboratorError "zabbix unreachable").
Proof.
  assert (exceptions_structure
            (workflow_dict (Mock.start Mock.workflow_dict_refused))
            Mock.no_errors [] []) as Hex by (by vm_compute).
  pose proof (GrantNFSAccess_catches_and_Zabbix_steps_propagate
                (Mock.start Mock.workflow_dict_refused) Mock.no_errors [] []
                Mock.step (Mock.zstart ∅) Hex) as ((Hdo & _) & Hdestroy & _).
  split; [exact Hex|]. split; [exact Hdo|].
  apply (Hdestroy (get_host_triggers (PStr "provider") "db01.host")).
  vm_compute. apply list_elem_of_here.
Defined.

End On_a_Zabbix_server_down.

Section On_a_Zabbix_server_up.
#[local] Existing Instance Mock.nfsaas.
#[local] Existing Instance Mock.util.
#[local] Existing Instance Mock.error_codes.
#[local] Existing Instance Mock.zabbix_up.

(** C4 fails on the code: the Zabbix steps return [None], which is neither
    [True] nor [False]. *)
Lemma Zabbix_steps_return_None_counterexample :
  (ZabbixStep.undo Mock.step (Mock.zstart ∅)).1 = Return PNone /\
  (DestroyAlarms.do Mock.step (Mock.zstart ∅)).1 = Return PNone /\
  (CreateAlarms.do Mock.step (Mock.zstart ∅)).1 = Return PNone /\
  ~ (exists b, (ZabbixStep.undo Mock.step (Mock.zstart ∅)).1
               = Return (PBool b)).
Proof.
  repeat (split; [by vm_compute|]). intros [b Hb]. vm_compute in Hb.
  discriminate.
Qed.

Lemma GrantNFSAccess_returns_bool_and_Zabbix_steps_None_witness :
  exceptions_structure
    (workflow_dict (Mock.start Mock.workflow_dict_refused))
    Mock.no_errors [] [] /\
  (exists b, (GrantNFSAccess.do (Mock.start Mock.workflow_dict_refused)).1
             = Return (PBool b)) /\
  ZabbixStep.undo Mock.step (Mock.zstart ∅) = (Return PNone, Mock.zstart ∅).
Proof.
  assert (exceptions_structure
            (workflow_dict (Mock.start Mock.workflow_dict_refused))
            Mock.no_errors [] []) as Hex by (by vm_compute).
  pose proof (GrantNFSAccess_returns_bool_and_Zabbix_steps_None
                (Mock.start Mock.workflow_dict_refused) Mock.no_errors [] []
                Mock.step (Mock.zstart ∅) Hex) as ((Hdo & _) & Hundo & _).
  split; [exact Hex|]. split; [exact Hdo|exact Hundo].
Defined.

(** Nothing to destroy: two queries, no deletion, a normal return.  With
    monitors on the host: the deletion for the host is among the calls. *)
Lemma DestroyAlarms_do_deletes_iff_triggers_witness :
  DestroyAlarms.do Mock.step (Mock.zstart ∅)
    = (Return PNone,
       State ∅ ∅
         [(get_host_triggers (PStr "provider") "db01.host", Return (PList []));
          (get_host_triggers (PStr "provider") "db01.dns", Return (PList []))])
  /\
  exists o,
    (delete_instance_monitors (PStr "provider") "db01.host", o)
      ∈ new_calls (Mock.zstart Mock.monitored)
          (DestroyAlarms.do Mock.step (Mock.zstart Mock.monitored)).2.
Proof.
  split.
  - apply (proj2 (proj2 (@DestroyAlarms_do_deletes_iff_triggers
                           Mock.zabbix_up Mock.step (Mock.zstart ∅)))
             (PList []) ∅ (PList []) ∅); reflexivity.
  - apply (proj1 (proj2 (@DestroyAlarms_do_deletes_iff_triggers
                           Mock.zabbix_up Mock.step (Mock.zstart Mock.monitored)))
             "db01.host").
    exists (PList [PStr "basic"]). split; [|reflexivity].
    vm_compute. apply list_elem_of_here.
Defined.

(** With monitors on the host, the deletion is the fifth call and the first
    creation the eighth. *)
Lemma CreateAlarms_do_destroys_before_creating_witness :
  new_calls (Mock.zstart Mock.monitored)
    (CreateAlarms.do Mock.step (Mock.zstart Mock.monitored)).2 !! 4
    = Some (delete_instance_monitors (PStr "provider") "db01.host",
            Return PNone) /\
  new_calls (Mock.zstart Mock.monitored)
    (CreateAlarms.do Mock.step (Mock.zstart Mock.monitored)).2 !! 7
    = Some (create_instance_basic_monitors (PStr "provider")
              (Instance.hostname Mock.instance),
            Return PNone) /\
  4 < 7.
Proof.
  assert (new_calls (Mock.zstart Mock.monitored)
            (CreateAlarms.do Mock.step (Mock.zstart Mock.monitored)).2 !! 4
          = Some (delete_instance_monitors (PStr "provider") "db01.host",
                  Return PNone)) as Hdel by (vm_compute; reflexivity).
  assert (new_calls (Mock.zstart Mock.monitored)
            (CreateAlarms.do Mock.step (Mock.zstart Mock.monitored)).2 !! 7
          = Some (create_instance_basic_monitors (PStr "provider")
                    (Instance.hostname Mock.instance),
                  Return PNone)) as Hcre by (vm_compute; reflexivity).
  split; [exact Hdel|]. split; [exact Hcre|].
  exact (proj2 (@CreateAlarms_do_destroys_before_creating
                  Mock.zabbix_up Mock.step (Mock.zstart Mock.monitored))
           4 7 _ _ _ _ Hdel eq_refl Hcre eq_refl).
Defined.

(** On the test double, whose monitors are kept under the names the step
    deletes, running [CreateAlarms.do] again leaves the monitors of one
    run: the second run deletes before it creates. *)
Example CreateAlarms_do_twice_on_test_double :
  world (CreateAlarms.do Mock.step
           (CreateAlarms.do Mock.step (Mock.zstart ∅)).2).2
    = world (CreateAlarms.do Mock.step (Mock.zstart ∅)).2 /\
  world (CreateAlarms.do Mock.step (Mock.zstart ∅)).2 !! "db01.host"
    = Some [PStr "basic"].
Proof. by vm_compute. Qed.

End On_a_Zabbix_server_up.

(** Three steps, the third fails and the undo of the second fails too: the
    three are undone, last first. *)
Lemma run_undoes_every_executed_step_witness :
  StepSequence.first_to_fail
    [Mock.succeeds; Mock.undo_fails; Mock.do_fails] [] 2 = true /\
  StepSequence.events
    (StepSequence.run [Mock.succeeds; Mock.undo_fails; Mock.do_fails] [])
    = [StepSequence.Do 0; StepSequence.Do 1; StepSequence.Do 2;
       StepSequence.Undo 2; StepSequence.Undo 1; StepSequence.Undo 0].
Proof.
  assert (StepSequence.first_to_fail
            [Mock.succeeds; Mock.undo_fails; Mock.do_fails] [] 2 = true)
    as Hf by reflexivity.
  split; [exact Hf|].
  exact (proj1 (run_undoes_every_executed_step _ _ _ Hf)).
Defined.

(** The two tests of [StatusAndInfoMongoDBTestCase]: the same exit code 1,
    two outputs, two errors. *)
Lemma check_status_classifies_by_output_witness :
  MongoDB.raise_connection_error "mongodb.sh" "mongodb.sh" ["status"]
    = inl (MongoDB.ErrorRunningScript "mongodb.sh" 1
        "Error: couldn't connect to server xxx:yyy at src/mongo/shell/mongo.js:147") /\
  MongoDB.check_status "mongodb.sh" (MongoDB.raise_connection_error "mongodb.sh")
    = inl MongoDB.ConnectionError /\
  MongoDB.check_status "mongodb.sh"
    (MongoDB.raise_authentication_error "mongodb.sh")
    = inl MongoDB.AuthenticationError.
Proof.
  split; [reflexivity|]. split.
  - apply (check_status_classifies_by_output "mongodb.sh"
             (MongoDB.raise_connection_error "mongodb.sh") _ _ _ eq_refl);
      reflexivity.
  - apply (check_status_classifies_by_output "mongodb.sh"
             (MongoDB.raise_authentication_error "mongodb.sh") _ _ _ eq_refl);
      reflexivity.
Defined.

(** * More on the steps *)

(** ** GrantNFSAccess: edges, failures and repeated runs *)

Section GrantNFSAccess_edges.
Context `{Collaborator nfsaas_call} `{Util} `{ErrorCodes}.

(** The two ways [do] ends on a [workflow_dict] with the 'exceptions'
    structure. *)
Lemma do_cases (s : state nfsaas_call World) exceptions error_codes traceback :
  exceptions_structure (workflow_dict s) exceptions error_codes traceback ->
  (GrantNFSAccess.do s = (Return (PBool true), (GrantNFSAccess.do_try s).2) /\
   workflow_dict (GrantNFSAccess.do_try s).2 = workflow_dict s) \/
  (exists e,
     (GrantNFSAccess.do_try s).1 = Raise e /\
     GrantNFSAccess.do s =
       (Return (PBool false),
        State (with_error (workflow_dict s) exceptions error_codes traceback
                 DBAAS_0021 (full_stack e))
              (world (GrantNFSAccess.do_try s).2)
              (calls (GrantNFSAccess.do_try s).2))).
Proof.
  intros Hex. rewrite do_unfold.
  pose proof (do_try_calls s) as Htry.
  pose proof (do_try_returns_True s) as Htrue.
  destruct (GrantNFSAccess.do_try s) as [[v|e] s1];
    destruct Htry as (Hwd & _); simpl in *.
  - left. by rewrite (Htrue v eq_refl).
  - right. exists e. split; [done|].
    rewrite <- Hwd in Hex. rewrite (except_Exception_ok s1 _ _ _ e Hex).
    by rewrite Hwd.
Qed.

Lemma exceptions_structure_with_error wd exceptions error_codes traceback
    code trace :
  exceptions_structure
    (with_error wd exceptions error_codes traceback code trace)
    (<["traceback" := PList (traceback ++ [trace])]>
       (<["error_codes" := PList (error_codes ++ [code])]> exceptions))
    (error_codes ++ [code]) (traceback ++ [trace]).
Proof.
  unfold exceptions_structure, with_error. rewrite lookup_insert_eq.
  split; [done|]. split.
  - rewrite lookup_insert_ne by done. apply lookup_insert_eq.
  - apply lookup_insert_eq.
Qed.

(** X6. The 'exceptions' structure survives any number of runs of [do]:
    after [n] runs on a [workflow_dict] that has it, every run has returned
    [True] or [False], the error codes are the old ones followed by one
    [DBAAS_0021] per run that returned [False], the tracebacks have grown by
    as many entries, and every other key has kept its value. *)
Theorem GrantNFSAccess_do_repeated (n : nat) (s : state nfsaas_call World)
    exceptions error_codes traceback :
  exceptions_structure (workflow_dict s) exceptions error_codes traceback ->
  let rs := (run_times n GrantNFSAccess.do s).1 in
  let wd' := workflow_dict (run_times n GrantNFSAccess.do s).2 in
  let k := length (List.filter returned_False rs) in
  length rs = n /\
  Forall (fun r => r = Return (PBool true) \/ r = Return (PBool false)) rs /\
  (exists exceptions' traces,
     exceptions_structure wd' exceptions'
       (error_codes ++ replicate k DBAAS_0021) (traceback ++ traces) /\
     length traces = k) /\
  (forall key, key <> "exceptions" -> wd' !! key = workflow_dict s !! key).
Proof.
  revert s exceptions error_codes traceback.
  induction n as [|n IH]; intros s ex ec tb Hex; simpl.
  - split; [done|]. split; [done|]. split; [|done].
    exists ex, []. by rewrite !app_nil_r.
  - destruct (do_cases s ex ec tb Hex) as [[Hdo Hwd]|(e & _ & Hdo)];
      rewrite Hdo.
    + rewrite <- Hwd in Hex.
      specialize (IH _ _ _ _ Hex).
      destruct (run_times n GrantNFSAccess.do _) as [rs s2]. simpl in *.
      destruct IH as (Hlen & Hall & Hlog & Hkeys).
      split; [by rewrite Hlen|]. split; [by constructor; [left|]|].
      split; [done|]. intros key Hk. by rewrite Hkeys, Hwd.
    + set (s1 := State _ _ _).
      pose proof (exceptions_structure_with_error (workflow_dict s) ex ec tb
                    DBAAS_0021 (full_stack e)) as Hex1.
      specialize (IH s1 _ _ _ Hex1).
      destruct (run_times n GrantNFSAccess.do s1) as [rs s2]. simpl in *.
      destruct IH as (Hlen & Hall & (ex' & traces & Hlog & Htr) & Hkeys).
      split; [by rewrite Hlen|]. split; [by constructor; [right|]|].
      split.
      * exists ex', (full_stack e :: traces). split; [|by rewrite <- Htr].
        rewrite <- !app_assoc in Hlog. exact Hlog.
      * intros key Hk. rewrite Hkeys by done. unfold with_error.
        by rewrite lookup_insert_ne.
Qed.

(** The loop over a list in two parts: the second part runs when the first
    has returned. *)
Lemma for_hosts_and_exports_app databaseinfra pre rest
    (s : state nfsaas_call World) :
  GrantNFSAccess.for_hosts_and_exports databaseinfra (pre ++ rest) s =
    match GrantNFSAccess.for_hosts_and_exports databaseinfra pre s with
    | (Return _, s1) =>
        GrantNFSAccess.for_hosts_and_exports databaseinfra rest s1
    | (Raise e, s1) => (Raise e, s1)
    end.
Proof.
  revert s. induction pre as [|entry pre IH]; intros s; [done|].
  simpl. unfold bind at 1 5, lift at 1 4.
  destruct (getattr databaseinfra "environment") as [environment|e1]; [|done].
  unfold bind at 1 4, lift at 1 3.
  destruct (getitem entry "host") as [host|e1]; [|done].
  unfold bind at 1 3, lift at 1 2.
  destruct (getitem entry "new_export_id") as [export_id|e1]; [|done].
  unfold bind at 1 2.
  destruct (call (grant_access environment host export_id) s)
    as [[v|e1] s1]; [|done].
  apply IH.
Qed.

(** On well-formed entries the calls of the loop are the first calls of the
    list of grants, a call that fails is the last one made, and the loop
    returns only after the whole list. *)
Lemma for_hosts_and_exports_prefix databaseinfra environment entries
    (hxs : list (pyval * pyval)) (s : state nfsaas_call World) :
  getattr databaseinfra "environment" = Return environment ->
  Forall2 (fun entry hx => host_and_export entry hx.1 hx.2) entries hxs ->
  let (r, s') := GrantNFSAccess.for_hosts_and_exports databaseinfra entries s in
  exists new, calls s' = calls s ++ new /\
    new.*1 = take (length new)
               ((fun hx => grant_access environment hx.1 hx.2) <$> hxs) /\
    (forall i c e, new !! i = Some (c, Raise e) ->
       S i = length new /\ failure r = Some e) /\
    (r = Return tt -> length new = length hxs).
Proof.
  intros Henv Hall. revert s.
  induction Hall as [|entry [host export_id] rest hxs (d & -> & Hh & Hx) _ IH];
    intros s; simpl.
  - exists []. rewrite app_nil_r. by repeat split.
  - unfold bind at 1, lift at 1. rewrite Henv.
    unfold bind at 1, lift at 1. unfold dict_getitem. simpl in Hh, Hx.
    rewrite Hh. unfold bind at 1, lift at 1. rewrite Hx.
    unfold bind at 1. rewrite call_run.
    destruct (respond (grant_access environment host export_id) (world s))
      as [[v|e1] w]; simpl.
    + specialize (IH (State (workflow_dict s) w
                        (calls s ++ [(grant_access environment host export_id,
                                      Return v)]))).
      destruct (GrantNFSAccess.for_hosts_and_exports _ _ _) as [r s'].
      destruct IH as (new & Hcalls & Hpre & Hlast & Hret). simpl in *.
      eexists (_ :: new). split; [by rewrite Hcalls, <- app_assoc|].
      split; [rewrite fmap_cons; cbn [length take]; f_equal; exact Hpre|].
      split.
      * intros [|i] c e Hi; [done|]. simpl in Hi.
        destruct (Hlast i c e Hi) as [Hi' ?]. split; [|done].
        cbn [length]. by rewrite Hi'.
      * intros Hr. simpl. by rewrite (Hret Hr).
    + eexists [_]. split; [done|]. split; [done|]. split; [|done].
      intros [|i] c e Hi; [|done]. by injection Hi as <- <-.
Qed.

(** X1. On a well-formed [workflow_dict], [GrantNFSAccess.do] stops at the
    first grant that fails: the calls it makes are the grants of the first
    entries of the list, in order; a call that fails is the last one it
    makes, so no later entry is granted, and then [do] does not return
    [True]; [do] returns [True] only after a call for every entry. *)
Theorem GrantNFSAccess_do_stops_at_first_failure (s : state nfsaas_call World)
    databaseinfra environment entries (hxs : list (pyval * pyval)) :
  workflow_dict s !! "databaseinfra" = Some databaseinfra ->
  getattr databaseinfra "environment" = Return environment ->
  workflow_dict s !! "hosts_and_exports" = Some (PList entries) ->
  Forall2 (fun entry hx => host_and_export entry hx.1 hx.2) entries hxs ->
  let new := new_calls s (GrantNFSAccess.do s).2 in
  new.*1 = take (length new)
             ((fun hx => grant_access environment hx.1 hx.2) <$> hxs) /\
  (forall i c e, new !! i = Some (c, Raise e) ->
     S i = length new /\ (GrantNFSAccess.do s).1 <> Return (PBool true)) /\
  ((GrantNFSAccess.do s).1 = Return (PBool true) -> length new = length hxs).
Proof.
  intros Hdb Henv Hlist Hentries new. subst new.
  unfold new_calls. rewrite do_calls, do_unfold.
  unfold GrantNFSAccess.do_try, bind, wd_getitem, dict_getitem, lift.
  rewrite Hdb, Hlist. simpl.
  pose proof (for_hosts_and_exports_prefix databaseinfra environment entries
                hxs s Henv Hentries) as Hloop.
  destruct (GrantNFSAccess.for_hosts_and_exports databaseinfra entries s)
    as [[[]|e1] s1]; destruct Hloop as (new & Hcalls & Hpre & Hlast & Hret);
    simpl; rewrite Hcalls, drop_app_length.
  - split; [done|]. split; [|by intros _; apply Hret].
    intros i c e Hi. by destruct (Hlast i c e Hi).
  - pose proof (except_Exception_any s1 e1) as Hh.
    destruct (GrantNFSAccess.except_Exception e1 s1) as [r s2].
    destruct Hh as (_ & _ & _ & Hfalse). simpl.
    assert (r <> Return (PBool true)) as Hr.
    { intros ->. by destruct (Hfalse _ eq_refl). }
    split; [done|]. split; [|done].
    intros i c e Hi. by destruct (Hlast i c e Hi).
Qed.

(** X2. When the [workflow_dict] has the 'exceptions' structure but lacks
    'databaseinfra' or 'hosts_and_exports', or holds something that cannot
    be iterated, or the infrastructure has no environment for a first entry,
    [GrantNFSAccess.do] calls the provider not even once, logs
    [DBAAS_0021] with the stack of that error and returns [False]. *)
Theorem GrantNFSAccess_do_missing_key (s : state nfsaas_call World)
    exceptions error_codes traceback :
  exceptions_structure (workflow_dict s) exceptions error_codes traceback ->
  let failed e :=
    GrantNFSAccess.do s =
      (Return (PBool false),
       State (with_error (workflow_dict s) exceptions error_codes traceback
                DBAAS_0021 (full_stack e))
             (world s) (calls s)) in
  (workflow_dict s !! "databaseinfra" = None ->
   failed (KeyError "databaseinfra")) /\
  (forall d, workflow_dict s !! "databaseinfra" = Some d ->
     workflow_dict s !! "hosts_and_exports" = None ->
     failed (KeyError "hosts_and_exports")) /\
  (forall d v e, workflow_dict s !! "databaseinfra" = Some d ->
     workflow_dict s !! "hosts_and_exports" = Some v ->
     iter v = Raise e -> failed e) /\
  (forall d entry rest e, workflow_dict s !! "databaseinfra" = Some d ->
     workflow_dict s !! "hosts_and_exports" = Some (PList (entry :: rest)) ->
     getattr d "environment" = Raise e -> failed e).
Proof.
  intros Hex failed. subst failed. cbv beta.
  repeat split.
  - intros Hdb. rewrite do_unfold.
    unfold GrantNFSAccess.do_try, bind, wd_getitem, dict_getitem.
    rewrite Hdb. by rewrite (except_Exception_ok s _ _ _ _ Hex).
  - intros d Hdb Hlist. rewrite do_unfold.
    unfold GrantNFSAccess.do_try, bind, wd_getitem, dict_getitem.
    rewrite Hdb, Hlist. by rewrite (except_Exception_ok s _ _ _ _ Hex).
  - intros d v e Hdb Hlist Hiter. rewrite do_unfold.
    unfold GrantNFSAccess.do_try, bind, wd_getitem, dict_getitem, lift.
    rewrite Hdb, Hlist, Hiter. by rewrite (except_Exception_ok s _ _ _ _ Hex).
  - intros d entry rest e Hdb Hlist Henv. rewrite do_unfold.
    unfold GrantNFSAccess.do_try, bind, wd_getitem, dict_getitem, lift.
    rewrite Hdb, Hlist. simpl. unfold bind, lift. rewrite Henv.
    by rewrite (except_Exception_ok s _ _ _ _ Hex).
Qed.

(** X3. With nothing to iterate over, an empty list, dictionary or string
    under 'hosts_and_exports', [GrantNFSAccess.do] returns [True] and leaves
    the whole state as it was: it asks neither for the environment of the
    infrastructure, whatever that object is, nor for the 'exceptions'
    structure. *)
Theorem GrantNFSAccess_do_nothing_to_grant (s : state nfsaas_call World) d v :
  workflow_dict s !! "databaseinfra" = Some d ->
  workflow_dict s !! "hosts_and_exports" = Some v ->
  iter v = Return [] ->
  GrantNFSAccess.do s = (Return (PBool true), s).
Proof.
  intros Hdb Hlist Hiter. rewrite do_unfold.
  unfold GrantNFSAccess.do_try, bind, wd_getitem, dict_getitem, lift.
  by rewrite Hdb, Hlist, Hiter.
Qed.

(** X4. Without the 'exceptions' key the handler fails in its turn: whatever
    went wrong in the [try] block, [GrantNFSAccess.do] raises
    [KeyError('exceptions')] in its place, and the [workflow_dict] is as it
    was; the calls already made stay made. *)
Theorem GrantNFSAccess_do_masks_failure (s : state nfsaas_call World) e :
  workflow_dict s !! "exceptions" = None ->
  (GrantNFSAccess.do_try s).1 = Raise e ->
  GrantNFSAccess.do s
    = (Raise (KeyError "exceptions"), (GrantNFSAccess.do_try s).2) /\
  workflow_dict (GrantNFSAccess.do s).2 = workflow_dict s.
Proof.
  intros Hnone Hraise. rewrite do_unfold.
  pose proof (do_try_calls s) as Htry.
  destruct (GrantNFSAccess.do_try s) as [r s1]. simpl in Hraise. subst r.
  destruct Htry as (Hwd & _).
  unfold GrantNFSAccess.except_Exception, bind, exceptions_append,
    dict_getitem.
  rewrite Hwd, Hnone. done.
Qed.

(** X5. With 'error_codes' but no 'traceback' under 'exceptions', a failure
    in the [try] block leaves the log with a code and no trace:
    [GrantNFSAccess.do] appends [DBAAS_0021], then raises
    [KeyError('traceback')]. *)
Theorem GrantNFSAccess_do_partial_log (s : state nfsaas_call World)
    exceptions error_codes e :
  workflow_dict s !! "exceptions" = Some (PDict exceptions) ->
  exceptions !! "error_codes" = Some (PList error_codes) ->
  exceptions !! "traceback" = None ->
  (GrantNFSAccess.do_try s).1 = Raise e ->
  (GrantNFSAccess.do s).1 = Raise (KeyError "traceback") /\
  workflow_dict (GrantNFSAccess.do s).2 =
    <["exceptions" :=
        PDict (<["error_codes" := PList (error_codes ++ [DBAAS_0021])]>
                 exceptions)]> (workflow_dict s) /\
  log_of "error_codes" (workflow_dict (GrantNFSAccess.do s).2)
    = Some (error_codes ++ [DBAAS_0021]) /\
  log_of "traceback" (workflow_dict (GrantNFSAccess.do s).2) = None.
Proof.
  intros Hex Hec Htb Hraise. rewrite do_unfold.
  pose proof (do_try_calls s) as Htry.
  destruct (GrantNFSAccess.do_try s) as [r s1]. simpl in Hraise. subst r.
  destruct Htry as (Hwd & _). rewrite <- Hwd in Hex.
  unfold GrantNFSAccess.except_Exception, bind.
  rewrite (exceptions_append_ok s1 exceptions "error_codes" error_codes)
    by done.
  unfold exceptions_append, dict_getitem. simpl.
  rewrite lookup_insert_eq. simpl. unfold dict_getitem.
  rewrite lookup_insert_ne by done. rewrite Htb. simpl. rewrite Hwd.
  split; [done|]. split; [done|]. unfold log_of.
  rewrite lookup_insert_eq, lookup_insert_eq, lookup_insert_ne by done.
  by rewrite Htb.
Qed.

(** X7. An entry without its 'host' or its 'new_export_id' ends the loop
    like a failed grant: when the entries before it are well formed and
    their grants went through, [GrantNFSAccess.do] has made those grants
    and no other call, the entries after it are not granted, and [do]
    returns [False] with the stack of the lookup error logged. *)
Theorem GrantNFSAccess_do_malformed_entry (s : state nfsaas_call World)
    exceptions error_codes traceback databaseinfra environment
    pre bad post (hxs : list (pyval * pyval)) e :
  exceptions_structure (workflow_dict s) exceptions error_codes traceback ->
  workflow_dict s !! "databaseinfra" = Some databaseinfra ->
  getattr databaseinfra "environment" = Return environment ->
  workflow_dict s !! "hosts_and_exports" = Some (PList (pre ++ bad :: post)) ->
  Forall2 (fun entry hx => host_and_export entry hx.1 hx.2) pre hxs ->
  (getitem bad "host" = Raise e \/
   exists host, getitem bad "host" = Return host /\
                getitem bad "new_export_id" = Raise e) ->
  Forall (fun cr => raises cr.2 = false) (new_calls s (GrantNFSAccess.do s).2) ->
  (GrantNFSAccess.do s).1 = Return (PBool false) /\
  (new_calls s (GrantNFSAccess.do s).2).*1
    = (fun hx => grant_access environment hx.1 hx.2) <$> hxs /\
  workflow_dict (GrantNFSAccess.do s).2
    = with_error (workflow_dict s) exceptions error_codes traceback
        DBAAS_0021 (full_stack e).
Proof.
  intros Hex Hdb Henv Hlist Hpre Hbad Hok.
  unfold new_calls in Hok |- *. rewrite do_calls in Hok |- *.
  assert (exists s1 new,
            GrantNFSAccess.do_try s = (Raise e, s1) /\
            calls s1 = calls s ++ new /\
            new.*1 = (fun hx => grant_access environment hx.1 hx.2) <$> hxs)
    as (s1 & new & Htry & Hcalls & Hnew).
  { revert Hok.
    unfold GrantNFSAccess.do_try, bind, wd_getitem, dict_getitem, lift.
    rewrite Hdb, Hlist. simpl. rewrite for_hosts_and_exports_app.
    pose proof (for_hosts_and_exports_all databaseinfra environment pre hxs s
                  Henv Hpre) as Hloop.
    destruct (GrantNFSAccess.for_hosts_and_exports databaseinfra pre s)
      as [r s1]. destruct Hloop as (new & Hcalls & Hall).
    destruct r as [[]|e1].
    - assert (GrantNFSAccess.for_hosts_and_exports databaseinfra
                (bad :: post) s1 = (Raise e, s1)) as ->.
      { simpl. unfold bind, lift. rewrite Henv.
        destruct Hbad as [->|(host & -> & ->)]; done. }
      simpl. intros Hok. rewrite Hcalls, drop_app_length in Hok.
      exists s1, new. by destruct (Hall Hok).
    - simpl. rewrite Hcalls, drop_app_length. intros Hok.
      by destruct (Hall Hok). }
  pose proof (do_try_calls s) as Hkeep. rewrite Htry in Hkeep.
  destruct Hkeep as (Hwd & _).
  rewrite do_unfold, Htry. rewrite <- Hwd in Hex.
  rewrite (except_Exception_ok s1 _ _ _ e Hex). simpl.
  by rewrite Hcalls, drop_app_length, Hwd.
Qed.

End GrantNFSAccess_edges.

(** ** The Zabbix steps: what they call, and in which order *)

(** One more collaborator call in the goal: case on its answer. *)
Ltac next_call :=
  rewrite ?call_run; simpl;
  match goal with
  | |- context [respond ?c ?w] =>
      let v := fresh "v" in
      let e := fresh "e" in
      let w' := fresh "w" in
      destruct (respond c w) as [[v|e] w'] eqn:?; simpl
  end.

(** The test of an [if monitors:] in the goal: case on it. *)
Ltac case_truthy :=
  match goal with
  | |- context [if truthy ?v then _ else _] =>
      destruct (truthy v) eqn:?; simpl
  end.

(** The calls of a finished run, as a list. *)
Ltac calls_of_run :=
  unfold new_calls; simpl; rewrite <- ?app_assoc, drop_app_length; simpl.

(** One finished run of [DestroyAlarms.do], its calls listed. *)
Ltac destroy_run :=
  calls_of_run;
  (split; [repeat first [apply List.Forall_nil | apply List.Forall_cons];
           (simpl; split; [done|first [by left | by right]])|]);
  (split; [lia|]); (split; [lia|]);
  (split; [by intros c o [= <- <-]|]);
  (split; [|done]);
  intros i name o Hi;
  repeat (destruct i as [|i]; simpl in Hi; try done);
  try (injection Hi as <- <-); eauto.

(** One finished run of [DestroyAlarms.do]: its calls, and whom they are
    for. *)
Ltac destroy_scope :=
  eexists; split; [simpl; rewrite <- ?app_assoc; reflexivity|];
  repeat first [apply List.Forall_nil | apply List.Forall_cons];
  (simpl; split; [done|first [by left | by right]]).

Section Zabbix_edges.
Context `{Collaborator zabbix_call}.


(** X9. [DestroyAlarms.do] only queries and deletes, on its own provider
    and for the instance's hostname or dns: it makes between one and four
    calls, at most two of them deletions, it starts with a query, each
    deletion comes right after a query for the same name that returned
    triggers, and the [workflow_dict] is not touched. *)
Theorem DestroyAlarms_do_only_queries_and_deletes (self : ZabbixStep.t)
    (s : state zabbix_call World) :
  let zabbix_provider := ZabbixStep.zabbix_provider self in
  let hostname := Host.hostname (Instance.hostname (ZabbixStep.instance self)) in
  let dns := Instance.dns (ZabbixStep.instance self) in
  let new := new_calls s (DestroyAlarms.do self s).2 in
  Forall (fun cr => query_or_deletion_for zabbix_provider hostname dns cr.1)
    new /\
  1 <= length new <= 4 /\
  length (List.filter (fun cr => is_deletion cr.1) new) <= 2 /\
  (forall c o, new !! 0 = Some (c, o) -> is_deletion c = false) /\
  (forall i name o,
     new !! S i = Some (delete_instance_monitors zabbix_provider name, o) ->
     exists v, new !! i = Some (get_host_triggers zabbix_provider name, Return v)
               /\ truthy v = true) /\
  workflow_dict (DestroyAlarms.do self s).2 = workflow_dict s.
Proof.
  intros zabbix_provider hostname dns.
  unfold DestroyAlarms.do, bind, ret.
  fold zabbix_provider hostname dns.
  next_call.
  - case_truthy.
    + next_call.
      * next_call.
        -- case_truthy.
           ++ next_call; destroy_run.
           ++ destroy_run.
        -- destroy_run.
      * destroy_run.
    + next_call.
      * case_truthy.
        -- next_call; destroy_run.
        -- destroy_run.
      * destroy_run.
  - destroy_run.
Qed.

(** X10. When the deletion of the hostname's monitors fails,
    [DestroyAlarms.do] ends there with that failure: the dns is neither
    queried nor cleaned. *)
Theorem DestroyAlarms_do_failed_deletion_skips_dns (self : ZabbixStep.t)
    (s : state zabbix_call World) v1 w1 e w2 :
  let zabbix_provider := ZabbixStep.zabbix_provider self in
  let hostname := Host.hostname (Instance.hostname (ZabbixStep.instance self)) in
  respond (get_host_triggers zabbix_provider hostname) (world s)
    = (Return v1, w1) ->
  truthy v1 = true ->
  respond (delete_instance_monitors zabbix_provider hostname) w1
    = (Raise e, w2) ->
  DestroyAlarms.do self s =
    (Raise e,
     State (workflow_dict s) w2
       (calls s ++
          [(get_host_triggers zabbix_provider hostname, Return v1);
           (delete_instance_monitors zabbix_provider hostname, Raise e)])).
Proof.
  intros zabbix_provider hostname E1 T1 E2.
  unfold DestroyAlarms.do, bind. rewrite call_run.
  fold zabbix_provider hostname. rewrite E1. simpl. rewrite T1.
  rewrite call_run. simpl. rewrite E2. simpl. by rewrite <- app_assoc.
Qed.

Lemma filter_no_creation (l : list (zabbix_call * outcome pyval)) :
  Forall (fun cr => is_creation cr.1 = false) l ->
  List.filter (fun cr => is_creation cr.1) l = [].
Proof.
  induction 1 as [|cr l Hcr _ IH]; [done|]. simpl. by rewrite Hcr.
Qed.

(** X11. [CreateAlarms.do] creates on its own provider, the basic monitors
    of the instance's host first and the monitors of the instance second,
    each at most once; a creation that fails is the last one attempted and
    its failure is what [do] raises; and [do] returns exactly when both
    creations were made and returned. *)
Theorem CreateAlarms_do_creates_in_order (self : ZabbixStep.t)
    (s : state zabbix_call World) :
  let new := new_calls s (CreateAlarms.do self s).2 in
  let creations := List.filter (fun cr => is_creation cr.1) new in
  creations.*1 `prefix_of`
    [create_instance_basic_monitors (ZabbixStep.zabbix_provider self)
       (Instance.hostname (ZabbixStep.instance self));
     create_instance_monitors (ZabbixStep.zabbix_provider self)
       (ZabbixStep.instance self)] /\
  (forall i c e, creations !! i = Some (c, Raise e) ->
     S i = length creations /\ (CreateAlarms.do self s).1 = Raise e) /\
  ((CreateAlarms.do self s).1 = Return PNone <->
   length creations = 2 /\ Forall (fun cr => raises cr.2 = false) creations).
Proof.
  intros new creations. subst creations new.
  destruct (CreateAlarms.do self s) as [r s'] eqn:Hdo. simpl.
  revert Hdo. rewrite CreateAlarms_do_unfold.
  pose proof (init_calls (ZabbixStep.instance self) s) as Hinit.
  destruct (ZabbixStep.__init__ (ZabbixStep.instance self) s)
    as [[destroy_alarms|e0] s0];
    destruct Hinit as (_ & new0 & Hc0 & Hno0 & _).
  2:{ intros [= <- <-]. unfold new_calls. rewrite Hc0, drop_app_length.
      rewrite filter_no_creation
        by (eapply Forall_impl; [exact Hno0|]; by intros ? [? ?]).
      split; [apply prefix_nil|]. split; [done|]. split; [done|].
      simpl. intros [? _]. lia. }
  assert (List.filter (fun cr : zabbix_call * outcome pyval =>
                         is_creation cr.1) new0 = []) as Hf0.
  { apply filter_no_creation.
    eapply Forall_impl; [exact Hno0|]. by intros ? [? ?]. }
  pose proof (DestroyAlarms_do_calls destroy_alarms s0) as Hd.
  destruct (DestroyAlarms.do destroy_alarms s0) as [[v1|e1] s1];
    destruct Hd as (_ & new1 & Hc1 & _ & Hno1 & _).
  2:{ intros [= <- <-]. unfold new_calls.
      rewrite Hc1, Hc0, <- app_assoc, drop_app_length.
      rewrite List.filter_app, Hf0, (filter_no_creation new1 Hno1).
      split; [apply prefix_nil|]. split; [done|]. split; [done|].
      simpl. intros [? _]. lia. }
  pose proof (filter_no_creation new1 Hno1) as Hf1.
  unfold bind at 1. rewrite finalize_run. unfold bind, ret.
  next_call; [next_call|];
    intros [= <- <-]; unfold new_calls; simpl;
    rewrite Hc1, Hc0, <- !app_assoc, drop_app_length;
    rewrite !List.filter_app, Hf0, Hf1; simpl.
  - split; [done|]. split; [by intros [|[|i]] c e'|].
    split; [|done]. intros _. split; [done|]. by repeat constructor.
  - split; [by eexists []|]. split.
    + intros [|[|i]] c e' Hi; try done. by injection Hi as <- <-.
    + split; [done|]. intros [_ Hok].
      apply Forall_cons in Hok as [_ Hok]. apply Forall_cons in Hok as [? _].
      done.
  - split; [by eexists [_]|]. split.
    + intros [|i] c e' Hi; try done. by injection Hi as <- <-.
    + split; [done|]. simpl. intros [? _]. lia.
Qed.

(** The constructor: its calls are calls of construction, and the provider
    of the step it builds is an answer of the factory. *)
Lemma init_run (instance : Instance.t) (s : state zabbix_call World) :
  let (r, s') := ZabbixStep.__init__ instance s in
  exists new, calls s' = calls s ++ new /\
    Forall (fun cr => is_construction cr.1 = true) new /\
    forall self, r = Return self ->
      ZabbixStep.instance self = instance /\
      exists credentials,
        (factory_for (Instance.databaseinfra instance) credentials,
         Return (ZabbixStep.zabbix_provider self)) ∈ new.
Proof.
  unfold ZabbixStep.__init__, bind, ret.
  next_call; [next_call; [next_call|]|].
  - eexists [_; _; _]. rewrite <- !app_assoc. split; [done|].
    split; [by repeat constructor|]. intros self [= <-]. split; [done|].
    eexists. is_call.
  - eexists [_; _; _]. rewrite <- !app_assoc. split; [done|].
    split; [by repeat constructor|]. done.
  - eexists [_; _]. rewrite <- !app_assoc. split; [done|].
    split; [by repeat constructor|]. done.
  - eexists [_]. split; [done|]. split; [by repeat constructor|]. done.
Qed.

(** The calls of [DestroyAlarms.do] are queries and deletions on the
    step's provider for the two names of its instance. *)
Lemma DestroyAlarms_do_scope (self : ZabbixStep.t)
    (s : state zabbix_call World) :
  exists new, calls (DestroyAlarms.do self s).2 = calls s ++ new /\
    Forall (fun cr =>
              query_or_deletion_for (ZabbixStep.zabbix_provider self)
                (Host.hostname (Instance.hostname (ZabbixStep.instance self)))
                (Instance.dns (ZabbixStep.instance self)) cr.1) new.
Proof.
  destruct (DestroyAlarms.do self s) as [r s'] eqn:Hdo. simpl.
  revert Hdo. unfold DestroyAlarms.do, bind, ret.
  next_call.
  - case_truthy.
    + next_call.
      * next_call.
        -- case_truthy.
           ++ next_call; intros [= <- <-]; destroy_scope.
           ++ intros [= <- <-]; destroy_scope.
        -- intros [= <- <-]; destroy_scope.
      * intros [= <- <-]; destroy_scope.
    + next_call.
      * case_truthy.
        -- next_call; intros [= <- <-]; destroy_scope.
        -- intros [= <- <-]; destroy_scope.
      * intros [= <- <-]; destroy_scope.
  - intros [= <- <-]; destroy_scope.
Qed.

(** X12. The queries and deletions [CreateAlarms.do] makes are for the
    hostname or the dns of its instance, and they go to the provider the
    factory returned to the inner [DestroyAlarms] step during this run, not
    to the provider the step was built with. *)
Theorem CreateAlarms_do_destroys_through_new_provider (self : ZabbixStep.t)
    (s : state zabbix_call World) :
  let new := new_calls s (CreateAlarms.do self s).2 in
  forall zabbix_provider name o,
    (get_host_triggers zabbix_provider name, o) ∈ new \/
    (delete_instance_monitors zabbix_provider name, o) ∈ new ->
    (name = Host.hostname (Instance.hostname (ZabbixStep.instance self)) \/
     name = Instance.dns (ZabbixStep.instance self)) /\
    exists credentials,
      (factory_for (Instance.databaseinfra (ZabbixStep.instance self))
         credentials,
       Return zabbix_provider) ∈ new.
Proof.
  intros new. subst new.
  destruct (CreateAlarms.do self s) as [r s'] eqn:Hdo. simpl.
  revert Hdo. rewrite CreateAlarms_do_unfold.
  pose proof (init_run (ZabbixStep.instance self) s) as Hinit.
  destruct (ZabbixStep.__init__ (ZabbixStep.instance self) s)
    as [[destroy_alarms|e0] s0];
    destruct Hinit as (new0 & Hc0 & Hcons & Hself).
  2:{ intros [= <- <-] p name o Hin. unfold new_calls in Hin.
      rewrite Hc0, drop_app_length in Hin.
      rewrite Forall_forall in Hcons.
      destruct Hin as [Hin|Hin]; by specialize (Hcons _ Hin). }
  destruct (Hself _ eq_refl) as (Hinst & credentials & Hfactory).
  destruct (DestroyAlarms_do_scope destroy_alarms s0)
    as (new1 & Hc1 & Hscope).
  rewrite Hinst in Hscope.
  assert (forall post p name o,
            Forall (fun cr : zabbix_call * outcome pyval =>
                      match cr.1 with
                      | get_host_triggers _ _
                      | delete_instance_monitors _ _ => False
                      | _ => True
                      end) post ->
            (get_host_triggers p name, o) ∈ new0 ++ new1 ++ post \/
            (delete_instance_monitors p name, o) ∈ new0 ++ new1 ++ post ->
            (name = Host.hostname
                      (Instance.hostname (ZabbixStep.instance self)) \/
             name = Instance.dns (ZabbixStep.instance self)) /\
            exists credentials0,
              (factory_for (Instance.databaseinfra (ZabbixStep.instance self))
                 credentials0, Return p) ∈ new0 ++ new1 ++ post) as Hall.
  { intros post p name o Hpost Hin.
    rewrite Forall_forall in Hcons, Hscope, Hpost.
    assert (forall c : zabbix_call * outcome pyval,
              c ∈ new0 ++ new1 ++ post ->
              is_construction c.1 = false ->
              match c.1 with
              | get_host_triggers _ _ | delete_instance_monitors _ _ => True
              | _ => False
              end ->
              query_or_deletion_for
                (ZabbixStep.zabbix_provider destroy_alarms)
                (Host.hostname (Instance.hostname (ZabbixStep.instance self)))
                (Instance.dns (ZabbixStep.instance self)) c.1) as Hq.
    { intros c Hc Hnot Hkind.
      apply elem_of_app in Hc as [Hc|Hc].
      - specialize (Hcons _ Hc). congruence.
      - apply elem_of_app in Hc as [Hc|Hc]; [by apply Hscope|].
        specialize (Hpost _ Hc). by destruct c.1. }
    assert (p = ZabbixStep.zabbix_provider destroy_alarms /\
            (name = Host.hostname
                      (Instance.hostname (ZabbixStep.instance self)) \/
             name = Instance.dns (ZabbixStep.instance self))) as [-> Hname].
    { destruct Hin as [Hin|Hin]; by apply (Hq _ Hin). }
    split; [done|]. exists credentials.
    apply elem_of_app. by left. }
  destruct (DestroyAlarms.do destroy_alarms s0) as [[v1|e1] s1];
    simpl in Hc1.
  2:{ intros [= <- <-] p name o Hin. unfold new_calls in Hin |- *.
      rewrite Hc1, Hc0, <- app_assoc, drop_app_length in Hin |- *.
      specialize (Hall [] p name o (List.Forall_nil _)).
      rewrite app_nil_r in Hall. by apply Hall. }
  unfold bind at 1. rewrite finalize_run. unfold bind, ret.
  next_call; [next_call|];
    intros [= <- <-] p name o Hin; unfold new_calls in Hin |- *;
    simpl in Hin |- *;
    rewrite Hc1, Hc0, <- !app_assoc, drop_app_length in Hin |- *;
    (apply (Hall _ p name o); [by repeat constructor|exact Hin]).
Qed.



End Zabbix_edges.

(** ** The same on the test doubles *)

Section Edges_on_test_doubles.
#[local] Existing Instance Mock.nfsaas.
#[local] Existing Instance Mock.util.
#[local] Existing Instance Mock.error_codes.

(** Two runs on the refused host: two codes, two traces. *)
Lemma GrantNFSAccess_do_repeated_witness :
  exceptions_structure
    (workflow_dict (Mock.start Mock.workflow_dict_refused))
    Mock.no_errors [] [] /\
  (run_times 2 GrantNFSAccess.do (Mock.start Mock.workflow_dict_refused)).1
    = [Return (PBool false); Return (PBool false)] /\
  exists exceptions' traces,
    exceptions_structure
      (workflow_dict
         (run_times 2 GrantNFSAccess.do
            (Mock.start Mock.workflow_dict_refused)).2)
      exceptions' ([] ++ replicate 2 DBAAS_0021) ([] ++ traces) /\
    length traces = 2.
Proof.
  assert (exceptions_structure
            (workflow_dict (Mock.start Mock.workflow_dict_refused))
            Mock.no_errors [] []) as Hex by (by vm_compute).
  split; [exact Hex|]. split; [by vm_compute|].
  exact (proj1 (proj2 (proj2 (GrantNFSAccess_do_repeated 2
           (Mock.start Mock.workflow_dict_refused) _ _ _ Hex)))).
Defined.

(** Three hosts, the second refused: two calls, the third host untouched. *)
Lemma GrantNFSAccess_do_stops_at_first_failure_witness :
  workflow_dict (Mock.start Mock.workflow_dict_refused) !! "databaseinfra"
    = Some Mock.databaseinfra /\
  getattr Mock.databaseinfra "environment" = Return (PStr "dev") /\
  workflow_dict (Mock.start Mock.workflow_dict_refused) !! "hosts_and_exports"
    = Some (PList [Mock.entry "host-1" 11; Mock.entry "host-2" 12;
                   Mock.entry "host-3" 13]) /\
  Forall2 (fun entry hx => host_and_export entry hx.1 hx.2)
    [Mock.entry "host-1" 11; Mock.entry "host-2" 12; Mock.entry "host-3" 13]
    [(PStr "host-1", PInt 11); (PStr "host-2", PInt 12);
     (PStr "host-3", PInt 13)] /\
  (new_calls (Mock.start Mock.workflow_dict_refused)
     (GrantNFSAccess.do (Mock.start Mock.workflow_dict_refused)).2).*1
    = [grant_access (PStr "dev") (PStr "host-1") (PInt 11);
       grant_access (PStr "dev") (PStr "host-2") (PInt 12)].
Proof.
  assert (Forall2 (fun entry hx => host_and_export entry hx.1 hx.2)
            [Mock.entry "host-1" 11; Mock.entry "host-2" 12;
             Mock.entry "host-3" 13]
            [(PStr "host-1", PInt 11); (PStr "host-2", PInt 12);
             (PStr "host-3", PInt 13)]) as H4.
  { repeat constructor; eexists; (split; [reflexivity|]);
      split; reflexivity. }
  split; [reflexivity|]. split; [reflexivity|]. split; [reflexivity|].
  split; [exact H4|].
  exact (proj1 (GrantNFSAccess_do_stops_at_first_failure
                  (Mock.start Mock.workflow_dict_refused)
                  Mock.databaseinfra (PStr "dev") _ _
                  eq_refl eq_refl eq_refl H4)).
Defined.

(** No 'hosts_and_exports': no call, one pair logged, [False]. *)
Lemma GrantNFSAccess_do_missing_key_witness :
  exceptions_structure
    (workflow_dict (Mock.start Mock.workflow_dict_no_hosts))
    Mock.no_errors [] [] /\
  GrantNFSAccess.do (Mock.start Mock.workflow_dict_no_hosts) =
    (Return (PBool false),
     State (with_error Mock.workflow_dict_no_hosts Mock.no_errors [] []
              DBAAS_0021 (full_stack (KeyError "hosts_and_exports")))
           0 []).
Proof.
  assert (exceptions_structure
            (workflow_dict (Mock.start Mock.workflow_dict_no_hosts))
            Mock.no_errors [] []) as Hex by (by vm_compute).
  split; [exact Hex|].
  exact (proj1 (proj2 (GrantNFSAccess_do_missing_key
                         (Mock.start Mock.workflow_dict_no_hosts) _ _ _ Hex))
           Mock.databaseinfra eq_refl eq_refl).
Defined.

(** An empty list and [None] for the infrastructure: [True], nothing
    changed. *)
Lemma GrantNFSAccess_do_nothing_to_grant_witness :
  workflow_dict (Mock.start Mock.workflow_dict_empty) !! "databaseinfra"
    = Some PNone /\
  workflow_dict (Mock.start Mock.workflow_dict_empty) !! "hosts_and_exports"
    = Some (PList []) /\
  iter (PList []) = Return [] /\
  GrantNFSAccess.do (Mock.start Mock.workflow_dict_empty)
    = (Return (PBool true), Mock.start Mock.workflow_dict_empty).
Proof.
  split; [reflexivity|]. split; [reflexivity|]. split; [reflexivity|].
  exact (GrantNFSAccess_do_nothing_to_grant
           (Mock.start Mock.workflow_dict_empty) PNone (PList [])
           eq_refl eq_refl eq_refl).
Defined.

(** The refused host and no 'exceptions': the caller sees a [KeyError], not
    the refusal. *)
Lemma GrantNFSAccess_do_masks_failure_witness :
  workflow_dict (Mock.start Mock.workflow_dict_bare) !! "exceptions" = None /\
  (GrantNFSAccess.do_try (Mock.start Mock.workflow_dict_bare)).1
    = Raise (CollaboratorError "access denied") /\
  (GrantNFSAccess.do (Mock.start Mock.workflow_dict_bare)).1
    = Raise (KeyError "exceptions").
Proof.
  assert ((GrantNFSAccess.do_try (Mock.start Mock.workflow_dict_bare)).1
          = Raise (CollaboratorError "access denied")) as Hraise
    by (by vm_compute).
  split; [reflexivity|]. split; [exact Hraise|].
  exact (f_equal fst
           (proj1 (GrantNFSAccess_do_masks_failure
                     (Mock.start Mock.workflow_dict_bare) _
                     eq_refl Hraise))).
Defined.

(** The refused host and no 'traceback' list: a code without its trace. *)
Lemma GrantNFSAccess_do_partial_log_witness :
  workflow_dict (Mock.start Mock.workflow_dict_no_traceback) !! "exceptions"
    = Some (PDict (<["error_codes" := PList []]> ∅)) /\
  (<["error_codes" := PList []]> ∅ : gmap string pyval) !! "error_codes"
    = Some (PList []) /\
  (<["error_codes" := PList []]> ∅ : gmap string pyval) !! "traceback"
    = None /\
  (GrantNFSAccess.do_try (Mock.start Mock.workflow_dict_no_traceback)).1
    = Raise (CollaboratorError "access denied") /\
  (GrantNFSAccess.do (Mock.start Mock.workflow_dict_no_traceback)).1
    = Raise (KeyError "traceback") /\
  log_of "error_codes"
    (workflow_dict
       (GrantNFSAccess.do (Mock.start Mock.workflow_dict_no_traceback)).2)
    = Some ([] ++ [DBAAS_0021]).
Proof.
  assert ((GrantNFSAccess.do_try
             (Mock.start Mock.workflow_dict_no_traceback)).1
          = Raise (CollaboratorError "access denied")) as Hraise
    by (by vm_compute).
  split; [reflexivity|]. split; [reflexivity|]. split; [reflexivity|].
  split; [exact Hraise|].
  pose proof (GrantNFSAccess_do_partial_log
                (Mock.start Mock.workflow_dict_no_traceback)
                (<["error_codes" := PList []]> ∅) [] _
                eq_refl eq_refl eq_refl Hraise) as (Hr & _ & Hcodes & _).
  split; [exact Hr|exact Hcodes].
Defined.

(** The second of three entries has no 'new_export_id': one grant, the
    lookup error logged, the third entry not granted. *)
Lemma GrantNFSAccess_do_malformed_entry_witness :
  exceptions_structure
    (workflow_dict (Mock.start Mock.workflow_dict_malformed))
    Mock.no_errors [] [] /\
  Forall2 (fun entry hx => host_and_export entry hx.1 hx.2)
    [Mock.entry "host-1" 11] [(PStr "host-1", PInt 11)] /\
  getitem (PDict (<["host" := PStr "host-3"]> ∅)) "new_export_id"
    = Raise (KeyError "new_export_id") /\
  Forall (fun cr => raises cr.2 = false)
    (new_calls (Mock.start Mock.workflow_dict_malformed)
       (GrantNFSAccess.do (Mock.start Mock.workflow_dict_malformed)).2) /\
  (GrantNFSAccess.do (Mock.start Mock.workflow_dict_malformed)).1
    = Return (PBool false) /\
  (new_calls (Mock.start Mock.workflow_dict_malformed)
     (GrantNFSAccess.do (Mock.start Mock.workflow_dict_malformed)).2).*1
    = [grant_access (PStr "dev") (PStr "host-1") (PInt 11)].
Proof.
  assert (exceptions_structure
            (workflow_dict (Mock.start Mock.workflow_dict_malformed))
            Mock.no_errors [] []) as Hex by (by vm_compute).
  assert (Forall2 (fun entry hx => host_and_export entry hx.1 hx.2)
            [Mock.entry "host-1" 11] [(PStr "host-1", PInt 11)]) as Hpre.
  { repeat constructor; eexists; (split; [reflexivity|]);
      split; reflexivity. }
  assert (Forall (fun cr => raises cr.2 = false)
            (new_calls (Mock.start Mock.workflow_dict_malformed)
               (GrantNFSAccess.do
                  (Mock.start Mock.workflow_dict_malformed)).2))
    as Hok by (vm_compute; repeat constructor).
  split; [exact Hex|]. split; [exact Hpre|]. split; [reflexivity|].
  split; [exact Hok|].
  pose proof (GrantNFSAccess_do_malformed_entry
                (Mock.start Mock.workflow_dict_malformed)
                Mock.no_errors [] [] Mock.databaseinfra (PStr "dev")
                [Mock.entry "host-1" 11]
                (PDict (<["host" := PStr "host-3"]> ∅))
                [Mock.entry "host-4" 14]
                [(PStr "host-1", PInt 11)] (KeyError "new_export_id")
                Hex eq_refl eq_refl eq_refl Hpre
                (or_intror (ex_intro _ (PStr "host-3") (conj eq_refl eq_refl)))
                Hok) as (Hr & Hcalls & _).
  split; [exact Hr|exact Hcalls].
Defined.

(** A server that refuses deletions, with monitors on the host: the query,
    the refused deletion, and nothing about the dns. *)
Lemma DestroyAlarms_do_failed_deletion_skips_dns_witness :
  @respond _ Mock.zabbix_read_only
    (get_host_triggers (PStr "provider") "db01.host") Mock.monitored
    = (Return (PList [PStr "basic"]), Mock.monitored) /\
  truthy (PList [PStr "basic"]) = true /\
  @respond _ Mock.zabbix_read_only
    (delete_instance_monitors (PStr "provider") "db01.host") Mock.monitored
    = (Raise (CollaboratorError "permission denied"), Mock.monitored) /\
  @DestroyAlarms.do Mock.zabbix_read_only Mock.step
    (Mock.zstart Mock.monitored) =
    (Raise (CollaboratorError "permission denied"),
     State ∅ Mock.monitored
       [(get_host_triggers (PStr "provider") "db01.host",
         Return (PList [PStr "basic"]));
        (delete_instance_monitors (PStr "provider") "db01.host",
         Raise (CollaboratorError "permission denied"))]).
Proof.
  split; [reflexivity|]. split; [reflexivity|]. split; [reflexivity|].
  exact (@DestroyAlarms_do_failed_deletion_skips_dns Mock.zabbix_read_only
           Mock.step (Mock.zstart Mock.monitored) _ _ _ _
           eq_refl eq_refl eq_refl).
Defined.

End Edges_on_test_doubles.

Section Edges_on_a_Zabbix_server_up.
#[local] Existing Instance Mock.zabbix_up.

(** With monitors on the host, the deletion goes to the provider the
    factory has just returned. *)
Lemma CreateAlarms_do_destroys_through_new_provider_witness :
  (delete_instance_monitors (PStr "provider") "db01.host", Return PNone)
    ∈ new_calls (Mock.zstart Mock.monitored)
        (CreateAlarms.do Mock.step (Mock.zstart Mock.monitored)).2 /\
  exists credentials,
    (factory_for (Instance.databaseinfra Mock.instance) credentials,
     Return (PStr "provider"))
      ∈ new_calls (Mock.zstart Mock.monitored)
          (CreateAlarms.do Mock.step (Mock.zstart Mock.monitored)).2.
Proof.
  assert ((delete_instance_monitors (PStr "provider") "db01.host",
           Return PNone)
            ∈ new_calls (Mock.zstart Mock.monitored)
                (CreateAlarms.do Mock.step (Mock.zstart Mock.monitored)).2)
    as Hin by (vm_compute; is_call).
  split; [exact Hin|].
  exact (proj2 (@CreateAlarms_do_destroys_through_new_provider
                  Mock.zabbix_up Mock.step (Mock.zstart Mock.monitored)
                  _ _ _ (or_intror Hin))).
Defined.

End Edges_on_a_Zabbix_server_up.
